(** * The HtmlNode wrapper mixin, the MML registry and the HTML handler

    A shallow embedding of
    - [CommonHtmlNodeMixin] (output/common/Wrappers/HtmlNode.ts),
    - the [MML] registry of node classes (core/MmlTree/MML.ts),
    - [HTMLHandler.HandlesDocument] (handlers/html/HTMLHandler.ts).

    JavaScript numbers are IEEE binary64 floats, JavaScript objects used as
    dictionaries are finite maps, and the DOM is a store of nodes addressed
    by reference. *)

From Stdlib Require Import PrimFloat.
From Stdlib Require Import Ascii String.
From stdpp Require Import gmap strings list fin_maps.

Local Open Scope string_scope.

(* ================================================================= *)
(** ** JavaScript values *)

(** A value of static type [number] that may still be [undefined] at run
    time (an array destructured past its end). *)
Inductive jsnumber : Type :=
| Undefined
| Num (x : PrimFloat.float).

(** ToNumber(undefined) is NaN. *)
Definition ToNumber (v : jsnumber) : PrimFloat.float :=
  match v with
  | Undefined => PrimFloat.nan
  | Num x => x
  end.

(** [a + b] on two values neither of which is a string. *)
Definition js_add (a b : jsnumber) : PrimFloat.float :=
  PrimFloat.add (ToNumber a) (ToNumber b).

(** Unary minus. *)
Definition js_neg (a : jsnumber) : PrimFloat.float :=
  PrimFloat.opp (ToNumber a).

(** [a !== b] on numbers: NaN differs from everything, +0 equals -0. *)
Definition js_strict_neq (a b : PrimFloat.float) : bool :=
  negb (PrimFloat.eqb a b).

(** ToBoolean on a value that is a string, [null] or [undefined]. *)
Definition truthy (s : option string) : bool :=
  match s with
  | Some s => negb (String.eqb s "")
  | None => false
  end.

(** [a || b] where [a] is a string or undefined and [b] a string. *)
Definition js_or (a : option string) (b : string) : string :=
  match a with
  | Some s => if truthy a then s else b
  | None => b
  end.

(** An object literal with computed keys: the properties are defined in
    source order, a later one replacing an earlier one with the same key.
    The map is the own properties of the object. *)
Definition object_literal {V : Type} (props : list (string * V)) : gmap string V :=
  foldl (λ o p, <[p.1 := p.2]> o) ∅ props.

(** An array destructuring target: element [i], or [undefined]. *)
Definition element_at (arr : list PrimFloat.float) (i : nat) : jsnumber :=
  match arr !! i with
  | Some x => Num x
  | None => Undefined
  end.

(** Constructors a value can be an instance of: the three the handler
    tests against, and any other class. *)
Inductive constructor : Type :=
| DOCUMENT      (* document.constructor *)
| HTMLELEMENT   (* window.HTMLElement *)
| FRAGMENT      (* window.DocumentFragment *)
| OtherClass (name : string).

#[global] Instance constructor_eq_dec : EqDecision constructor.
Proof. solve_decision. Defined.

(** The values [HandlesDocument] can receive ([document: any]): a
    primitive, or an object with the constructors on its prototype chain. *)
Inductive value : Type :=
| VUndefined
| VNull
| VBoolean (b : bool)
| VNumber (x : PrimFloat.float)
| VString (s : string)
| VObject (chain : list constructor).

(** The result of evaluating a call: a value, or a thrown exception. *)
Inductive completion (A : Type) : Type :=
| Normal (a : A)
| Throw (err : value).
Arguments Normal {A} a.
Arguments Throw {A} err.

(** [v instanceof C]: false on primitives, otherwise a search of the
    prototype chain. *)
Definition instanceof (v : value) (C : constructor) : bool :=
  match v with
  | VObject chain => bool_decide (C ∈ chain)
  | _ => false
  end.

(* ================================================================= *)
(** ** The MML registry (MML.ts) *)

Module Mml.

(** The node classes imported by MML.ts. *)
Inductive MmlNodeClass : Type :=
| MmlMath
| MmlMi | MmlMn | MmlMo | MmlMtext | MmlMspace | MmlMs
| MmlMrow | MmlInferredMrow | MmlMfrac | MmlMsqrt | MmlMroot | MmlMstyle
| MmlMerror | MmlMpadded | MmlMphantom | MmlMfenced | MmlMenclose
| MmlMaction
| MmlMsub | MmlMsup | MmlMsubsup | MmlMunder | MmlMover | MmlMunderover
| MmlMmultiscripts | MmlMprescripts | MmlNone
| MmlMtable | MmlMlabeledtr | MmlMtr | MmlMtd | MmlMaligngroup | MmlMalignmark
| MmlSemantics | MmlAnnotation | MmlAnnotationXML
| TeXAtom
| TextNode | XMLNode.

#[global] Instance MmlNodeClass_eq_dec : EqDecision MmlNodeClass.
Proof. solve_decision. Defined.

Section Registry.

(** [C.prototype.kind], declared with each class in MmlNodes/*.ts. *)
Variable kind : MmlNodeClass → string.

(** The registry literal, entry by entry. *)
Definition MML : gmap string MmlNodeClass :=
  object_literal [
    (kind MmlMath, MmlMath);

    (kind MmlMi, MmlMi);
    (kind MmlMn, MmlMn);
    (kind MmlMo, MmlMo);
    (kind MmlMtext, MmlMtext);
    (kind MmlMspace, MmlMspace);
    (kind MmlMs, MmlMs);

    (kind MmlMrow, MmlMrow);
    (kind MmlInferredMrow, MmlInferredMrow);
    (kind MmlMfrac, MmlMfrac);
    (kind MmlMsqrt, MmlMsqrt);
    (kind MmlMroot, MmlMroot);
    (kind MmlMstyle, MmlMstyle);
    (kind MmlMerror, MmlMerror);
    (kind MmlMpadded, MmlMpadded);
    (kind MmlMphantom, MmlMphantom);
    (kind MmlMfenced, MmlMfenced);
    (kind MmlMenclose, MmlMenclose);

    (kind MmlMaction, MmlMaction);

    (kind MmlMsub, MmlMsub);
    (kind MmlMsup, MmlMsup);
    (kind MmlMsubsup, MmlMsubsup);
    (kind MmlMunder, MmlMunder);
    (kind MmlMover, MmlMover);
    (kind MmlMunderover, MmlMunderover);
    (kind MmlMmultiscripts, MmlMmultiscripts);
    (kind MmlMprescripts, MmlMprescripts);
    (kind MmlNone, MmlNone);

    (kind MmlMtable, MmlMtable);
    (kind MmlMlabeledtr, MmlMlabeledtr);
    (kind MmlMtr, MmlMtr);
    (kind MmlMtd, MmlMtd);
    (kind MmlMaligngroup, MmlMaligngroup);
    (kind MmlMalignmark, MmlMalignmark);

    (kind MmlSemantics, MmlSemantics);
    (kind MmlAnnotation, MmlAnnotation);
    (kind MmlAnnotationXML, MmlAnnotationXML);

    (kind TeXAtom, TeXAtom);

    (kind TextNode, TextNode);
    (kind XMLNode, XMLNode)
  ].

End Registry.

(** Every class of the literal, in source order. *)
Definition classes : list MmlNodeClass :=
  [ MmlMath; MmlMi; MmlMn; MmlMo; MmlMtext; MmlMspace; MmlMs;
    MmlMrow; MmlInferredMrow; MmlMfrac; MmlMsqrt; MmlMroot; MmlMstyle;
    MmlMerror; MmlMpadded; MmlMphantom; MmlMfenced; MmlMenclose;
    MmlMaction;
    MmlMsub; MmlMsup; MmlMsubsup; MmlMunder; MmlMover; MmlMunderover;
    MmlMmultiscripts; MmlMprescripts; MmlNone;
    MmlMtable; MmlMlabeledtr; MmlMtr; MmlMtd; MmlMaligngroup; MmlMalignmark;
    MmlSemantics; MmlAnnotation; MmlAnnotationXML;
    TeXAtom;
    TextNode; XMLNode ].

(** Modelled from the spec: the [kind] strings of the node classes; the
    classes themselves (MmlNode.ts, MmlNodes/*.ts) are not part of this
    source.  MmlMi, MmlMo, MmlMfrac and MmlMtable have the kinds the spec
    names (mi, mo, mfrac, mtable); every other element class has its MathML
    element name, and the internal classes the name of their file. *)
Definition kind (C : MmlNodeClass) : string :=
  match C with
  | MmlMath => "math"
  | MmlMi => "mi" | MmlMn => "mn" | MmlMo => "mo" | MmlMtext => "mtext"
  | MmlMspace => "mspace" | MmlMs => "ms"
  | MmlMrow => "mrow" | MmlInferredMrow => "inferredMrow"
  | MmlMfrac => "mfrac" | MmlMsqrt => "msqrt" | MmlMroot => "mroot"
  | MmlMstyle => "mstyle" | MmlMerror => "merror" | MmlMpadded => "mpadded"
  | MmlMphantom => "mphantom" | MmlMfenced => "mfenced"
  | MmlMenclose => "menclose"
  | MmlMaction => "maction"
  | MmlMsub => "msub" | MmlMsup => "msup" | MmlMsubsup => "msubsup"
  | MmlMunder => "munder" | MmlMover => "mover" | MmlMunderover => "munderover"
  | MmlMmultiscripts => "mmultiscripts" | MmlMprescripts => "mprescripts"
  | MmlNone => "none"
  | MmlMtable => "mtable" | MmlMlabeledtr => "mlabeledtr" | MmlMtr => "mtr"
  | MmlMtd => "mtd" | MmlMaligngroup => "maligngroup"
  | MmlMalignmark => "malignmark"
  | MmlSemantics => "semantics" | MmlAnnotation => "annotation"
  | MmlAnnotationXML => "annotation-xml"
  | TeXAtom => "TeXAtom"
  | TextNode => "text" | XMLNode => "XML"
  end.

End Mml.

(* ================================================================= *)
(** ** The HTML handler (HTMLHandler.ts) *)

Module Handler.

Section HTMLHandler.

(** [parser.parseFromString], of the DOMParser of util/document.js. *)
Variable parseFromString : string → string → completion value.

Definition HandlesDocument (document : value) : completion bool :=
  let document :=
    match document with
    | VString s =>
        match parseFromString s "text/html" with
        | Normal doc => doc
        | Throw err => document
        end
    | _ => document
    end in
  if instanceof document DOCUMENT then Normal true
  else if instanceof document HTMLELEMENT then Normal true
  else if instanceof document FRAGMENT then Normal true
  else Normal false.

End HTMLHandler.

Section Create.

(** [parser.parseFromString], as above, the options list of
    util/Options.ts, and the constructor of HTMLDocument (HTMLDocument.ts),
    which may throw as any constructor may. *)
Variable parseFromString : string → string → completion value.
Variable OptionList : Type.
Variable HTMLDocumentClass : Type.
Variable HTMLDocument : value → OptionList → completion HTMLDocumentClass.

Definition Create (document : value) (options : OptionList)
    : completion HTMLDocumentClass :=
  match document with
  | VString s =>
      match parseFromString s "text/html" with
      | Normal doc => HTMLDocument doc options
      | Throw err => Throw err
      end
  | _ => HTMLDocument document options
  end.

End Create.

(** The test [HandlesDocument] makes on the value it ends up with. *)
Definition is_handled (v : value) : bool :=
  instanceof v DOCUMENT || instanceof v HTMLELEMENT || instanceof v FRAGMENT.

End Handler.

(* ================================================================= *)
(** ** The DOM behind the adaptor *)

(** A node reference (the type parameter [N] of the wrappers). *)
Abbreviation Node := nat (only parsing).

(** A style object, [StyleList] of util/Styles.ts. *)
Abbreviation StyleList := (gmap string string) (only parsing).

Module Dom.

(** A node of the document: its kind (the tag name, or #text), attributes,
    inline styles, children, parent, and text for a text node. *)
Record Element : Type := mkElement {
  kind : string;
  attributes : gmap string string;
  styles : gmap string string;
  children : list Node;
  parent_of : option Node;
  text : string
}.

(** The definition object handed to [node]: the style object under the key
    [style], and the remaining keys as attributes. *)
Record Def : Type := mkDef {
  def_attributes : gmap string string;
  def_style : gmap string string
}.

(** Computations on the document, the store of all nodes addressed by
    reference.  A computation that does not return is [None]: it throws an
    exception, or [clone] has run out of fuel. *)
Definition M (A : Type) : Type := gmap nat Element → option (A * gmap nat Element).

Definition ret {A : Type} (a : A) : M A := λ doc, Some (a, doc).

Definition bind {A B : Type} (m : M A) (k : A → M B) : M B :=
  λ doc, match m doc with
         | Some (a, doc') => k a doc'
         | None => None
         end.

Notation "'let!' x ':=' m 'in' k" := (bind m (λ x, k))
  (at level 10, x binder, m at level 100, k at level 200).

(** Run [f] on each element of [l] in turn, threading the document. *)
Fixpoint mapM {A B : Type} (f : A → M B) (l : list A) : M (list B) :=
  match l with
  | [] => ret []
  | a :: l' => let! b := f a in let! bs := mapM f l' in ret (b :: bs)
  end.

Definition set_parent (p : option Node) (e : Element) : Element :=
  mkElement (kind e) (attributes e) (styles e) (children e) p (text e).

Definition set_children (cs : list Node) (e : Element) : Element :=
  mkElement (kind e) (attributes e) (styles e) cs (parent_of e) (text e).

Definition set_def (def : Def) (e : Element) : Element :=
  mkElement (kind e) (def_attributes def ∪ attributes e)
            (def_style def ∪ styles e) (children e) (parent_of e) (text e).

(** Modelled from the spec: the DOM adaptor, whose implementations are not
    part of this source; its operations are the attribute reads and tree
    updates of a DOM.  [getAttribute] reads an attribute of a node and is
    [None] (null) where the node has none of that name. *)
Definition getAttribute (node : Node) (name : string) : M (option string) :=
  λ doc, Some (doc !! node ≫= (λ e, attributes e !! name), doc).

(** Modelled from the spec: the adaptor's [parent], the parent of a node or
    null. *)
Definition parent (node : Node) : M (option Node) :=
  λ doc, Some (doc !! node ≫= parent_of, doc).

(** Modelled from the spec: the adaptor's [create], a new detached element
    of the given kind. *)
Definition create (k : string) : M Node :=
  λ doc, let n := fresh (dom doc) in
         Some (n, <[n := mkElement k ∅ ∅ [] None ""]> doc).

(** Modelled from the spec: the adaptor's [setAttributes], which copies the
    style object and the attributes of a definition object to a node. *)
Definition setAttributes (node : Node) (def : Def) : M unit :=
  λ doc, Some (tt, alter (set_def def) node doc).

(** Modelled from the spec: the adaptor's [remove], which detaches a node
    from its parent. *)
Definition remove (child : Node) : M unit :=
  λ doc, match doc !! child ≫= parent_of with
         | Some p =>
             Some (tt, alter (set_parent None) child
                         (alter (λ e, set_children
                                        (filter (λ c, c ≠ child) (children e)) e)
                                p doc))
         | None => Some (tt, doc)
         end.

(** Modelled from the spec: the adaptor's [append], which makes a node the
    last child of another, detaching it from its old parent first. *)
Definition append (node child : Node) : M unit :=
  let! _ := remove child in
  λ doc, Some (tt, alter (set_parent (Some node)) child
                     (alter (λ e, set_children (children e ++ [child]) e)
                            node doc)).

(** Modelled from the spec: the adaptor's [node], a new element with the
    given definition and children. *)
Definition node (k : string) (def : Def) (content : list Node) : M Node :=
  let! n := create k in
  let! _ := setAttributes n def in
  let! _ := mapM (append n) content in
  ret n.

(** Modelled from the spec: the adaptor's [clone], a deep copy of a node:
    the copy of the root is detached, and every copied child has its copied
    parent.  [fuel] bounds the depth of the tree that is copied. *)
Fixpoint clone_at (fuel : nat) (p : option Node) (n : Node) : M Node :=
  match fuel with
  | O => λ _, None
  | S fuel' =>
      λ doc,
        match doc !! n with
        | None => None
        | Some e =>
            let n' := fresh (dom doc) in
            (let! cs := mapM (clone_at fuel' (Some n')) (children e) in
             λ doc', Some (n', alter (set_children cs) n' doc'))
              (<[n' := set_children [] (set_parent p e)]> doc)
        end
  end.

Definition clone (fuel : nat) (n : Node) : M Node := clone_at fuel None n.

(** [n] is the root of a tree of the document of depth at most [depth]. *)
Fixpoint tree_within (depth : nat) (doc : gmap nat Element) (n : Node) : bool :=
  match depth with
  | O => false
  | S depth' =>
      match doc !! n with
      | None => false
      | Some e => forallb (tree_within depth' doc) (children e)
      end
  end.

End Dom.

(* ================================================================= *)
(** ** The CommonHtmlNode wrapper mixin (HtmlNode.ts) *)

Module HtmlNode.

Import Dom.

(** Strings are sequences of bytes, a character outside ASCII being its
    UTF-8 encoding.  The bytes that are white space on their own: the space,
    and the controls from tab to carriage return. *)
Definition is_space (c : ascii) : bool :=
  let n := nat_of_ascii c in
  (n =? 32)%nat || ((9 <=? n)%nat && (n <=? 13)%nat).

Definition bytes (l : list nat) : string :=
  string_of_list_ascii (map ascii_of_nat l).

(** The white space of more than one byte: the other characters that [\s]
    and [trim] take for white space, U+00A0, U+1680, U+2000 to U+200A,
    U+2028, U+2029, U+202F, U+205F, U+3000 and U+FEFF, in UTF-8. *)
Definition wide_spaces : list string :=
  [ bytes [194; 160]; bytes [225; 154; 128] ] ++
  map (λ b, bytes [226; 128; b])
      [128; 129; 130; 131; 132; 133; 134; 135; 136; 137; 138; 168; 169; 175] ++
  [ bytes [226; 129; 159]; bytes [227; 128; 128]; bytes [239; 187; 191] ].

(** The number of bytes of the white-space character [x] starts with, 0
    when it starts with none. *)
Definition space_length (x : string) : nat :=
  match x with
  | EmptyString => 0
  | String c _ =>
      if is_space c then 1
      else match List.find (λ s, String.prefix s x) wide_spaces with
           | Some s => String.length s
           | None => 0
           end
  end.

(** The words of [x] between runs of white space, none of them empty;
    [word] is the word being read, and [skip] the number of bytes left of
    the white-space character being passed. *)
Fixpoint components (skip : nat) (word : string) (x : string) : list string :=
  match x with
  | EmptyString => if String.eqb word "" then [] else [word]
  | String c x' =>
      match skip with
      | S skip' => components skip' word x'
      | O =>
          match space_length x with
          | O => components 0 (word +:+ String c "") x'
          | S skip' =>
              if String.eqb word "" then components skip' "" x'
              else word :: components skip' "" x'
          end
      end
  end.

(** Modelled from the spec: [split] of util/string.ts, which is not part of
    this source: the whitespace-separated components of a string.  The
    string is trimmed and cut at each run of white space; a string with
    nothing but white space has the single, empty component. *)
Definition split (x : string) : list string :=
  match components 0 "" x with
  | [] => [""]
  | ws => ws
  end.

(** A string with nothing but white space. *)
Fixpoint blank_from (skip : nat) (x : string) : bool :=
  match x with
  | EmptyString => true
  | String c x' =>
      match skip with
      | S skip' => blank_from skip' x'
      | O =>
          match space_length x with
          | O => false
          | S skip' => blank_from skip' x'
          end
      end
  end.

Definition blank (x : string) : bool := blank_from 0 x.

(** [UnknownBBox] of output/common/OutputJax.ts. *)
Record UnknownBBox : Type := mkUnknownBBox {
  h : jsnumber;
  d : jsnumber;
  w : jsnumber
}.

(** The fields of a [BBox] (util/BBox.ts) that the wrapper writes, and the
    others it leaves alone. *)
Record BBox : Type := mkBBox {
  bbox_w : jsnumber;
  bbox_h : jsnumber;
  bbox_d : jsnumber;
  bbox_L : PrimFloat.float;
  bbox_R : PrimFloat.float;
  bbox_pwidth : string
}.

(** [ExtendedMetrics]: the two fields [getHTML] reads. *)
Record ExtendedMetrics : Type := mkMetrics {
  scale : PrimFloat.float;
  family : string
}.

(** The output jax as the wrapper sees it: [jax.options.htmlHDW],
    [jax.math.metrics] and [jax.math.start.node]. *)
Record Jax : Type := mkJax {
  htmlHDW : string;
  metrics : ExtendedMetrics;
  math_start_node : Node
}.

(** The parent wrapper: [parent.variant], and
    [parent.styles?.styles?.['font-family']], undefined when any link of the
    chain is. *)
Record ParentWrapper : Type := mkParent {
  variant : string;
  styles_font_family : option string
}.

(** A wrapper built by the mixin class: [this.node.getHTML()] (the HTML
    tree stored in the HtmlNode), [this.jax] and [this.parent]. *)
Record Wrapper : Type := mkWrapper {
  node_getHTML : Node;
  jax : Jax;
  parent : ParentWrapper
}.

(** The data-mjx-hdw attribute of a node of the document. *)
Definition hdw_attribute (doc : gmap nat Element) (n : Node) : option string :=
  doc !! n ≫= (λ e, attributes e !! "data-mjx-hdw").

(** The cached metrics of a node are complete: the node has no
    data-mjx-hdw value, or an empty one, or one of three components or
    more. *)
Definition complete_hdw (doc : gmap nat Element) (n : Node) : bool :=
  match hdw_attribute doc n with
  | Some v => String.eqb v "" || (3 <=? List.length (split v))%nat
  | None => true
  end.

Section Mixin.

(** What the mixin inherits or calls and this source does not define:
    [em] and [length2em] of the base wrapper, [fixed] and [measureXMLnode]
    of the output jax, and the adaptor's [fontFamily].  [em] prints a number
    of em units. *)
Variable em : PrimFloat.float → string.
Variable length2em : string → PrimFloat.float.
Variable fixed : PrimFloat.float → PrimFloat.float → string.
Variable fontFamily : option Node → gmap nat Element → string.
Variable measureXMLnode : Node → gmap nat Element → UnknownBBox * gmap nat Element.

(** Modelled from the spec: a call [this.em(m)] of the method of the base
    wrapper, which is not part of this source.  The method prints its
    argument with [toFixed]: on a number, NaN among them, it returns the
    string; on undefined the method call on the argument throws a
    TypeError, and the call does not return. *)
Definition call_em (m : jsnumber) : M string :=
  λ doc, match m with
         | Num x => Some (em x, doc)
         | Undefined => None
         end.

(** [this.html(type, def, content)] of the base wrapper builds the node
    with the adaptor. *)
Definition html (type : string) (def : Def) (content : list Node) : M Node :=
  node type def content.

Definition getHDW (this : Wrapper) (html : Node) (use : string)
    (force : option string) : M (option string) :=
  let force := default use force in
  let option := htmlHDW (jax this) in
  let! hdw := getAttribute html "data-mjx-hdw" in
  ret (if truthy hdw && (String.eqb option use || String.eqb option force)
       then hdw else None).

Definition splitHDW (hdw : string) : UnknownBBox :=
  let arr := map (λ x, length2em (if truthy (Some x) then x else "0")) (split hdw) in
  mkUnknownBBox (element_at arr 0) (element_at arr 1) (element_at arr 2).

Definition addHDW (this : Wrapper) (html0 : Node) (styles : StyleList)
    : M (Node * StyleList) :=
  let! hdw := getHDW this html0 "force" None in
  match hdw with
  | Some s =>
      if truthy hdw then
        let '(mkUnknownBBox h d w) := splitHDW s in
        let styles := <["height" := em (js_add h d)]> styles in
        let! width := call_em w in
        let styles := <["width" := width]> styles in
        let styles := <["vertical-align" := em (js_neg d)]> styles in
        let styles := <["position" := "relative"]> styles in
        let! holder := html "mjx-html-holder" (mkDef ∅ ∅) [html0] in
        ret (holder, styles)
      else ret (html0, styles)
  | None => ret (html0, styles)
  end.

Definition getHTML (fuel : nat) (this : Wrapper) : M Node :=
  let jax := jax this in
  let styles : StyleList := ∅ in
  let! copy := clone fuel (node_getHTML this) in
  let! '(html1, styles) := addHDW this copy styles in
  let metrics := metrics jax in
  let styles :=
    if js_strict_neq (scale metrics) 1%float
    then <["font-size" := fixed (PrimFloat.div 100%float (scale metrics)) 1%float +:+ "%"]> styles
    else styles in
  let! parent_node := Dom.parent (math_start_node jax) in
  let! inherited := (λ doc, Some (fontFamily parent_node doc, doc)) in
  let styles :=
    <["font-family" :=
        js_or (styles_font_family (parent this))
          (js_or (Some (family metrics))
             (js_or (Some inherited) "initial"))]> styles in
  html "mjx-html" (mkDef {["variant" := variant (parent this)]} styles) [html1].

Definition computeBBox (fuel : nat) (this : Wrapper) (bbox : BBox) : M BBox :=
  let! hdw := getHDW this (node_getHTML this) "use" (Some "force") in
  let! '(mkUnknownBBox h d w) :=
    match hdw with
    | Some s =>
        if truthy hdw then ret (splitHDW s)
        else (let! n := getHTML fuel this in λ doc, Some (measureXMLnode n doc))
    | None => let! n := getHTML fuel this in λ doc, Some (measureXMLnode n doc)
    end in
  let bbox := mkBBox w (bbox_h bbox) (bbox_d bbox) (bbox_L bbox) (bbox_R bbox) (bbox_pwidth bbox) in
  let bbox := mkBBox (bbox_w bbox) h (bbox_d bbox) (bbox_L bbox) (bbox_R bbox) (bbox_pwidth bbox) in
  let bbox := mkBBox (bbox_w bbox) (bbox_h bbox) d (bbox_L bbox) (bbox_R bbox) (bbox_pwidth bbox) in
  ret bbox.

(** *** What the statements below are phrased with *)

(** The styles [addHDW] sets from cached metrics [h], [d] and [w]. *)
Definition holder_styles (h d w : PrimFloat.float) (styles : StyleList) : StyleList :=
  <["position" := "relative"]>
    (<["vertical-align" := em (PrimFloat.opp d)]>
       (<["width" := em w]>
          (<["height" := em (PrimFloat.add h d)]> styles))).

(** The styles [getHTML] gives the mjx-html element, from the styles that
    [addHDW] leaves and the font family inherited from the container. *)
Definition html_styles (this : Wrapper) (styles : StyleList) (inherited : string)
    : StyleList :=
  <["font-family" :=
      js_or (styles_font_family (parent this))
        (js_or (Some (family (metrics (jax this))))
           (js_or (Some inherited) "initial"))]>
    (if js_strict_neq (scale (metrics (jax this))) 1%float
     then <["font-size" :=
              fixed (PrimFloat.div 100%float (scale (metrics (jax this)))) 1%float
              +:+ "%"]> styles
     else styles).

(** [bbox.w = w; bbox.h = h; bbox.d = d]. *)
Definition set_hdw (b : UnknownBBox) (bbox : BBox) : BBox :=
  mkBBox (w b) (h b) (d b) (bbox_L bbox) (bbox_R bbox) (bbox_pwidth bbox).

End Mixin.

(** A wrapper class, as far as the overrides of the mixin go: the three
    protected methods with which a wrapper computes its styles, its scale
    and its variant.  A method takes the wrapper it is called on and gives
    its return value and the wrapper as the call leaves it. *)
Record WrapperConstructor (W : Type) : Type := mkWrapperConstructor {
  getStyles : W → value * W;
  getScale : W → value * W;
  getVariant : W → value * W
}.
Arguments mkWrapperConstructor {W} _ _ _.
Arguments getStyles {W} _ _.
Arguments getScale {W} _ _.
Arguments getVariant {W} _ _.

(** The class the mixin returns overrides all three with an empty body: a
    call falls off the end of the function, which returns undefined. *)
Definition CommonHtmlNodeMixin {W : Type} (Base : WrapperConstructor W)
    : WrapperConstructor W :=
  mkWrapperConstructor
    (λ this, (VUndefined, this))
    (λ this, (VUndefined, this))
    (λ this, (VUndefined, this)).

End HtmlNode.

(* ================================================================= *)
(** * A worked instance *)

Module Sample.

Import Dom HtmlNode.

(** Stand-ins for the inherited conversions: lengths of the form 1em, 2em
    and 0.5em, and a printer that tells the three cases apart. *)
Definition length2em (x : string) : PrimFloat.float :=
  if String.eqb x "1em" then 1%float
  else if String.eqb x "2em" then 2%float
  else if String.eqb x "0.5em" then 0.5%float
  else 0%float.

Definition em (m : PrimFloat.float) : string :=
  if PrimFloat.eqb m 0%float then "0"
  else if PrimFloat.ltb m 0%float then "-em" else "+em".

Definition fixed (m n : PrimFloat.float) : string :=
  if PrimFloat.eqb m 50%float then "50" else "100".

Definition fontFamily (n : option Node) (doc : gmap nat Element) : string :=
  match n with
  | Some _ => "serif"
  | None => ""
  end.

Definition measureXMLnode (n : Node) (doc : gmap nat Element)
    : UnknownBBox * gmap nat Element :=
  (mkUnknownBBox (Num 1%float) (Num 0%float) (Num 3%float), doc).

(** A document: a span with cached metrics and one text child, stored in an
    HtmlNode, and the container of the expression inside a paragraph. *)
Definition doc : gmap nat Element :=
  <[0 := mkElement "span" {["data-mjx-hdw" := "1em 0.5em 2em"]} ∅ [1] None ""]>
    (<[1 := mkElement "#text" ∅ ∅ [] (Some 0) "n"]>
       (<[2 := mkElement "mjx-container" ∅ ∅ [] (Some 3) ""]>
          (<[3 := mkElement "p" ∅ ∅ [2] None ""]> ∅))).

Definition wrapper (option : string) (scale : PrimFloat.float) : Wrapper :=
  mkWrapper 0 (mkJax option (mkMetrics scale "") 2) (mkParent "normal" None).

Definition bbox : BBox :=
  mkBBox (Num 0%float) (Num 0%float) (Num 0%float) 0%float 0%float "".

End Sample.

(* ================================================================= *)
(** * Properties *)

(** ** The registry *)

Lemma object_literal_snoc {V : Type} (props : list (string * V)) (p : string * V) :
  object_literal (props ++ [p]) = <[p.1 := p.2]> (object_literal props).
Proof. unfold object_literal. by rewrite foldl_app. Qed.

(** With pairwise distinct keys, every property of an object literal is
    found under its key. *)
Lemma object_literal_lookup {V : Type} (props : list (string * V)) (k : string) (v : V) :
  NoDup props.*1 → (k, v) ∈ props → object_literal props !! k = Some v.
Proof.
  induction props as [|p props IH] using rev_ind; intros Hnd Hin.
  - by apply elem_of_nil in Hin.
  - rewrite object_literal_snoc.
    rewrite fmap_app in Hnd. apply NoDup_app in Hnd as (Hnd & Hfresh & _).
    apply elem_of_app in Hin as [Hin | Hin].
    + rewrite lookup_insert_ne; [by apply IH|].
      intros Heq. apply (Hfresh k).
      * apply list_elem_of_fmap. by exists (k, v).
      * rewrite <- Heq. simpl. apply list_elem_of_singleton. done.
    + apply list_elem_of_singleton in Hin. subst p. simpl.
      by rewrite lookup_insert_eq.
Qed.

Lemma MML_as_list (kind : Mml.MmlNodeClass → string) :
  Mml.MML kind = object_literal ((λ C, (kind C, C)) <$> Mml.classes).
Proof. reflexivity. Qed.

Lemma classes_complete (C : Mml.MmlNodeClass) : C ∈ Mml.classes.
Proof. apply list_elem_of_In. destruct C; vm_compute; tauto. Qed.

(** Whatever kinds the classes declare, as long as no two of them declare
    the same one, the registry maps the kind of each class to the class. *)
Lemma MML_distinct_kinds (kind : Mml.MmlNodeClass → string) (C : Mml.MmlNodeClass) :
  NoDup (kind <$> Mml.classes) → Mml.MML kind !! kind C = Some C.
Proof.
  intros Hnd. rewrite MML_as_list. apply object_literal_lookup.
  - by rewrite <- list_fmap_compose.
  - apply list_elem_of_fmap. exists C. split; [done | apply classes_complete].
Qed.

Lemma kind_NoDup : NoDup (Mml.kind <$> Mml.classes).
Proof. apply (bool_decide_unpack (NoDup (Mml.kind <$> Mml.classes))). vm_compute. exact I. Qed.

(** C2: the registry maps the kind of every class of the literal to that
    class; it has the entries mi, mo, mfrac and mtable, for MmlMi, MmlMo,
    MmlMfrac and MmlMtable, and an entry for each of TextNode and XMLNode. *)
Theorem MML_registry :
  (∀ C : Mml.MmlNodeClass, Mml.MML Mml.kind !! Mml.kind C = Some C) ∧
  Mml.MML Mml.kind !! "mi" = Some Mml.MmlMi ∧
  Mml.MML Mml.kind !! "mo" = Some Mml.MmlMo ∧
  Mml.MML Mml.kind !! "mfrac" = Some Mml.MmlMfrac ∧
  Mml.MML Mml.kind !! "mtable" = Some Mml.MmlMtable ∧
  Mml.MML Mml.kind !! Mml.kind Mml.TextNode = Some Mml.TextNode ∧
  Mml.MML Mml.kind !! Mml.kind Mml.XMLNode = Some Mml.XMLNode.
Proof.
  assert (Hall : ∀ C, Mml.MML Mml.kind !! Mml.kind C = Some C)
    by (intros C; apply MML_distinct_kinds, kind_NoDup).
  split; [exact Hall|].
  split; [exact (Hall Mml.MmlMi)|].
  split; [exact (Hall Mml.MmlMo)|].
  split; [exact (Hall Mml.MmlMfrac)|].
  split; [exact (Hall Mml.MmlMtable)|].
  split; [exact (Hall Mml.TextNode) | exact (Hall Mml.XMLNode)].
Qed.

(** A literal in which two classes declare one kind keeps the later class
    only: the distinctness of the kinds is what the registry rests on. *)
Example MML_colliding_kinds :
  Mml.MML (λ C, match C with Mml.MmlMi | Mml.MmlMn => "mi" | _ => Mml.kind C end)
    !! "mi" = Some Mml.MmlMn.
Proof. vm_compute. reflexivity. Qed.

(** ** The handler *)

(** C8: [HandlesDocument] returns normally on every input, with a boolean:
    for a string that parses, whether the parsed document is an instance of
    one of the three constructors; for a string whose parse throws, false
    (the exception is caught); for any other value, whether the value is an
    instance of one of the three. *)
Theorem HandlesDocument_total
    (parseFromString : string → string → completion value) (document : value) :
  Handler.HandlesDocument parseFromString document =
  Normal (match document with
          | VString s =>
              match parseFromString s "text/html" with
              | Normal doc => Handler.is_handled doc
              | Throw _ => false
              end
          | _ => Handler.is_handled document
          end).
Proof.
  unfold Handler.HandlesDocument, Handler.is_handled.
  destruct document as [| |b|x|s|chain]; simpl; try reflexivity.
  - destruct (parseFromString s "text/html") as [doc|err]; simpl; [|reflexivity].
    by destruct (instanceof doc DOCUMENT), (instanceof doc HTMLELEMENT),
         (instanceof doc FRAGMENT).
  - by destruct (bool_decide (DOCUMENT ∈ chain)),
         (bool_decide (HTMLELEMENT ∈ chain)), (bool_decide (FRAGMENT ∈ chain)).
Qed.

(** A parse that throws is caught, and the string itself is no instance
    of anything. *)
Example HandlesDocument_parse_error :
  Handler.HandlesDocument (λ _ _, Throw (VString "SyntaxError")) (VString "<p>")
  = Normal false.
Proof. reflexivity. Qed.

Example HandlesDocument_parsed :
  Handler.HandlesDocument
    (λ _ _, Normal (VObject [DOCUMENT; OtherClass "Node"])) (VString "<p>x</p>")
  = Normal true.
Proof. reflexivity. Qed.

Example HandlesDocument_fragment :
  Handler.HandlesDocument (λ _ _, Throw VUndefined)
    (VObject [FRAGMENT; OtherClass "Node"])
  = Normal true.
Proof. reflexivity. Qed.

(** ** The overridden methods *)

(** C10: on a wrapper of the class the mixin returns, whatever the base
    class, [getStyles], [getScale] and [getVariant] return undefined and
    leave the wrapper as it was. *)
Theorem overrides_are_noops {W : Type} (Base : HtmlNode.WrapperConstructor W) (this : W) :
  HtmlNode.getStyles (HtmlNode.CommonHtmlNodeMixin Base) this = (VUndefined, this) ∧
  HtmlNode.getScale (HtmlNode.CommonHtmlNodeMixin Base) this = (VUndefined, this) ∧
  HtmlNode.getVariant (HtmlNode.CommonHtmlNodeMixin Base) this = (VUndefined, this).
Proof. by repeat split. Qed.

(** ** Reading the cached metrics *)

Section AdaptorProperties.

Import Dom HtmlNode.

Lemma truthy_Some (s : string) : truthy (Some s) = true ↔ s ≠ "".
Proof.
  simpl. destruct (String.eqb_spec s "") as [->|Hne]; simpl; split; try done.
Qed.

Lemma getHDW_run (this : Wrapper) (n : Node) (use : string) (force : option string)
    (doc : gmap nat Element) :
  getHDW this n use force doc =
  Some (if truthy (hdw_attribute doc n) &&
           (String.eqb (htmlHDW (jax this)) use ||
            String.eqb (htmlHDW (jax this)) (default use force))
        then hdw_attribute doc n else None, doc).
Proof. reflexivity. Qed.

Lemma hdw_condition (a o use force : string) :
  truthy (Some a) && (String.eqb o use || String.eqb o force) = true ↔
  a ≠ "" ∧ (o = use ∨ o = force).
Proof.
  rewrite andb_true_iff, orb_true_iff, truthy_Some, !String.eqb_eq. tauto.
Qed.

(** C3: [getHDW html use force] returns, and leaves the document as it
    was; its result is the data-mjx-hdw value exactly when that value is not
    empty and the htmlHDW option is [use] or [force], and null otherwise. *)
Theorem getHDW_spec (this : Wrapper) (n : Node) (use force : string)
    (doc : gmap nat Element) :
  ∃ r : option string,
    getHDW this n use (Some force) doc = Some (r, doc) ∧
    (∀ v, r = Some v ↔
          hdw_attribute doc n = Some v ∧ v ≠ "" ∧
          (htmlHDW (jax this) = use ∨ htmlHDW (jax this) = force)) ∧
    (r = None ↔
       ¬ ∃ v, hdw_attribute doc n = Some v ∧ v ≠ "" ∧
              (htmlHDW (jax this) = use ∨ htmlHDW (jax this) = force)).
Proof.
  rewrite getHDW_run. eexists. split; [reflexivity|]. simpl.
  destruct (hdw_attribute doc n) as [a|] eqn:Ha.
  - pose proof (hdw_condition a (htmlHDW (jax this)) use force) as Hc.
    destruct (truthy (Some a) && _) eqn:Hb.
    + destruct Hc as [Hc _]. specialize (Hc eq_refl). split.
      * intros v. split; [by intros [= <-] | by intros (? & _)].
      * split; [done|]. intros Hno. exfalso. apply Hno. by exists a.
    + split.
      * intros v. split; [done|]. intros ([= <-] & Hne & Hor).
        destruct Hc as [_ Hc]. by specialize (Hc (conj Hne Hor)).
      * split; [|done]. intros _ (v & [= <-] & Hne & Hor).
        destruct Hc as [_ Hc]. by specialize (Hc (conj Hne Hor)).
  - simpl. split.
    + intros v; split; [done | by intros (? & _)].
    + split; [|done]. by intros _ (v & ? & _).
Qed.

(** ** The components of a string *)

Example split_three : split "1.2em  .3em 4em" = ["1.2em"; ".3em"; "4em"].
Proof. reflexivity. Qed.

Example split_trims : split "  1em 2em " = ["1em"; "2em"].
Proof. reflexivity. Qed.

Example split_blank : split "  " = [""].
Proof. reflexivity. Qed.

(** A no-break space (U+00A0) and a thin space (U+2009) separate
    components as a space does, and a letter of two bytes is part of one. *)
Example split_wide_spaces :
  split ("1em" +:+ bytes [194; 160] +:+ "2em" +:+ bytes [226; 128; 137] +:+ "3em")
  = ["1em"; "2em"; "3em"].
Proof. reflexivity. Qed.

Example split_no_break_space : split (bytes [194; 160]) = [""].
Proof. reflexivity. Qed.

Example split_two_byte_letter :
  split (bytes [195; 169] +:+ " x") = [bytes [195; 169]; "x"].
Proof. reflexivity. Qed.

Example blank_wide_spaces :
  blank (" " +:+ bytes [239; 187; 191] +:+ bytes [227; 128; 128]) = true.
Proof. reflexivity. Qed.

(** ** The adaptor: allocation, cloning and the frame they keep *)

Lemma fresh_lookup (doc : gmap nat Element) : doc !! fresh (dom doc) = None.
Proof. apply not_elem_of_dom, is_fresh. Qed.

Lemma lookup_ne_fresh (doc : gmap nat Element) (n : Node) (e : Element) :
  doc !! n = Some e → n ≠ fresh (dom doc).
Proof. intros Hn ->. rewrite fresh_lookup in Hn. done. Qed.

(** Lookups through the updates of the store. *)
Ltac map_lookup :=
  repeat first
    [ rewrite lookup_alter_eq | rewrite lookup_insert_eq
    | rewrite lookup_alter_ne by done | rewrite lookup_insert_ne by done ].

(** What [node] does with one child that is in the document: the new
    element is at a reference that was free, it has the kind, attributes and
    styles asked for and the child as its only child, and the child has it
    as parent.  If the child was detached, no node that was in the document
    changes but the child. *)
Lemma node_single (k : string) (def : Def) (c : Node) (ec : Element)
    (doc : gmap nat Element) :
  doc !! c = Some ec →
  ∃ doc' ec',
    node k def [c] doc = Some (fresh (dom doc), doc') ∧
    doc' !! fresh (dom doc) =
      Some (mkElement k (def_attributes def) (def_style def) [c] None "") ∧
    doc' !! c = Some ec' ∧
    parent_of ec' = Some (fresh (dom doc)) ∧
    kind ec' = kind ec ∧ attributes ec' = attributes ec ∧ styles ec' = styles ec ∧
    (parent_of ec = None →
     children ec' = children ec ∧
     ∀ j e, j ≠ c → doc !! j = Some e → doc' !! j = Some e).
Proof.
  intros Hc. pose proof (lookup_ne_fresh _ _ _ Hc) as Hne.
  set (n := fresh (dom doc)) in *.
  assert (Hne' : n ≠ c) by done.
  unfold node, bind, create, setAttributes, ret. simpl.
  fold n. unfold append, bind, remove.
  map_lookup. rewrite Hc. simpl.
  destruct (parent_of ec) as [p|] eqn:Hp.
  - destruct (decide (p = c)) as [Hpc|Hpc]; [rewrite Hpc|];
      (eexists _, _; split; [reflexivity|]; split;
       [ destruct (decide (p = n)) as [Hpn|Hpn]; [try rewrite Hpn|];
         map_lookup; simpl; unfold set_def; simpl;
         by rewrite !(right_id_L ∅ (∪))
       | map_lookup; rewrite Hc; simpl; (split; [reflexivity|]);
         repeat split; done ]).
  - eexists _, _. split; [reflexivity|].
    map_lookup. split.
    { simpl. unfold set_def. simpl. by rewrite !(right_id_L ∅ (∪)). }
    rewrite Hc. simpl. split; [reflexivity|]. repeat split; try done.
    intros j e Hj He.
    pose proof (lookup_ne_fresh _ _ _ He) as Hjn. fold n in Hjn.
    assert (n ≠ j) by done. assert (c ≠ j) by done.
    map_lookup. done.
Qed.

(** Running a step that only extends the document over a list only
    extends the document. *)
Lemma mapM_frame {A B : Type} (f : A → M B) (l : list A) :
  (∀ a doc b doc', a ∈ l → f a doc = Some (b, doc') → doc ⊆ doc') →
  ∀ doc bs doc', mapM f l doc = Some (bs, doc') → doc ⊆ doc'.
Proof.
  induction l as [|a l IH]; intros Hf doc bs doc' Hrun.
  - injection Hrun as <- <-. done.
  - simpl in Hrun. unfold bind in Hrun.
    destruct (f a doc) as [[b doc1]|] eqn:Hfa; [|done].
    destruct (mapM f l doc1) as [[bs' doc2]|] eqn:Hl; [|done].
    injection Hrun as <- <-.
    transitivity doc1.
    + eapply Hf; [|done]. by left.
    + eapply IH; [|done]. intros ???? Hin. eapply Hf. by right.
Qed.

(** A clone is a new node with the kind, attributes, styles and text of
    the original and the parent asked for, and cloning changes no node that
    was in the document. *)
Lemma clone_at_spec (fuel : nat) :
  ∀ (p : option Node) (n : Node) (doc : gmap nat Element) (n' : Node)
    (doc' : gmap nat Element),
    clone_at fuel p n doc = Some (n', doc') →
    doc ⊆ doc' ∧ n' = fresh (dom doc) ∧
    ∃ e cs, doc !! n = Some e ∧
            doc' !! n' = Some (mkElement (kind e) (attributes e) (styles e)
                                         cs p (text e)).
Proof.
  induction fuel as [|fuel IH]; intros p n doc n' doc' Hrun; [done|].
  simpl in Hrun. destruct (doc !! n) as [e|] eqn:He; [|done].
  unfold bind in Hrun.
  set (n0 := fresh (dom doc)) in *.
  set (doc1 := <[n0 := set_children [] (set_parent p e)]> doc) in *.
  destruct (mapM (clone_at fuel (Some n0)) (children e) doc1)
    as [[cs doc2]|] eqn:Hcs; [|done].
  injection Hrun as <- <-.
  assert (H12 : doc1 ⊆ doc2).
  { eapply mapM_frame; [|exact Hcs]. intros a d b d' _ Ha.
    by destruct (IH _ _ _ _ _ Ha) as (? & _). }
  assert (H01 : doc ⊆ doc1) by (apply insert_subseteq, fresh_lookup).
  split; [|split; [done|]].
  - apply map_subseteq_spec. intros j ej Hj.
    pose proof (lookup_ne_fresh _ _ _ Hj) as Hjn. fold n0 in Hjn.
    assert (n0 ≠ j) by done. map_lookup.
    eapply lookup_weaken; [|exact H12]. eapply lookup_weaken; [|exact H01]. done.
  - exists e, cs. split; [done|]. map_lookup.
    assert (Hn0 : doc2 !! n0 = Some (set_children [] (set_parent p e))).
    { eapply lookup_weaken; [|exact H12]. unfold doc1. by map_lookup. }
    rewrite Hn0. reflexivity.
Qed.

Lemma tree_within_mono (depth : nat) (doc doc' : gmap nat Element) (n : Node) :
  doc ⊆ doc' → tree_within depth doc n = true → tree_within depth doc' n = true.
Proof.
  intros Hsub. revert n. induction depth as [|depth IH]; intros n Ht; [done|].
  simpl in *. destruct (doc !! n) as [e|] eqn:He; [|done].
  rewrite (lookup_weaken _ _ _ _ He Hsub).
  apply forallb_forall. intros c Hc.
  apply IH. by eapply forallb_forall in Ht.
Qed.

(** With fuel for the depth of the tree, cloning returns. *)
Lemma clone_at_total (fuel : nat) :
  ∀ (p : option Node) (n : Node) (doc : gmap nat Element),
    tree_within fuel doc n = true → is_Some (clone_at fuel p n doc).
Proof.
  induction fuel as [|fuel IH]; intros p n doc Ht; [done|].
  simpl in *. destruct (doc !! n) as [e|] eqn:He; [|done].
  unfold bind.
  set (n0 := fresh (dom doc)) in *.
  set (doc1 := <[n0 := set_children [] (set_parent p e)]> doc) in *.
  assert (H01 : doc ⊆ doc1) by (apply insert_subseteq, fresh_lookup).
  assert (Hall : ∀ l d, doc ⊆ d → forallb (tree_within fuel doc) l = true →
                        is_Some (mapM (clone_at fuel (Some n0)) l d)).
  { clear Ht. induction l as [|c l IHl]; intros d Hd Hl; [by eexists|].
    simpl in Hl. apply andb_true_iff in Hl as [Hc Hl].
    simpl. unfold bind.
    destruct (IH (Some n0) c d) as [[c' d'] Hrun].
    { by eapply tree_within_mono. }
    rewrite Hrun.
    destruct (clone_at_spec _ _ _ _ _ _ Hrun) as (Hdd & _).
    destruct (IHl d') as [[cs d''] Hrest]; [by transitivity d | done |].
    rewrite Hrest. by eexists. }
  destruct (Hall (children e) doc1 H01 Ht) as [[cs doc2] Hcs].
  rewrite Hcs. by eexists.
Qed.

(** Were the stored node itself handed to [node], it would not stay as it
    was: it would get the new element as its parent. *)
Lemma node_reparents_child (k : string) (def : Def) (c : Node) (ec : Element)
    (doc : gmap nat Element) :
  doc !! c = Some ec → parent_of ec = None →
  ∃ n doc', node k def [c] doc = Some (n, doc') ∧ doc' !! c ≠ doc !! c.
Proof.
  intros Hc Hp.
  destruct (node_single k def c ec doc Hc)
    as (doc' & ec' & Hrun & _ & Hc' & Hparent & _).
  exists (fresh (dom doc)), doc'. split; [exact Hrun|].
  rewrite Hc, Hc'. intros [= ->]. by rewrite Hp in Hparent.
Qed.

End AdaptorProperties.

(** ** The methods of the mixin *)

Section MixinProperties.

#[local] Set Default Proof Using "Type".

Import Dom HtmlNode.

Variable em : PrimFloat.float → string.
Variable length2em : string → PrimFloat.float.
Variable fixed : PrimFloat.float → PrimFloat.float → string.
Variable fontFamily : option Node → gmap nat Element → string.
Variable measureXMLnode : Node → gmap nat Element → UnknownBBox * gmap nat Element.

(** ** Splitting the cached metrics *)

(** With three components or more, the three metrics are the first three
    components converted, an empty one read as 0. *)
Lemma splitHDW_three_components (hdw a b c : string) (rest : list string) :
  split hdw = a :: b :: c :: rest →
  splitHDW length2em hdw =
  mkUnknownBBox (Num (length2em (if String.eqb a "" then "0" else a)))
                (Num (length2em (if String.eqb b "" then "0" else b)))
                (Num (length2em (if String.eqb c "" then "0" else c))).
Proof.
  intros Hs. unfold splitHDW. rewrite Hs. simpl.
  by destruct (String.eqb a ""), (String.eqb b ""), (String.eqb c "").
Qed.

(** A component that is missing is undefined, whatever the input: with
    fewer than three components, [w] is undefined. *)
Lemma splitHDW_short (hdw : string) :
  length (split hdw) < 3 → w (splitHDW length2em hdw) = Undefined.
Proof.
  intros Hlen. unfold splitHDW. simpl. unfold element_at.
  rewrite lookup_ge_None_2; [done|]. rewrite length_map. lia.
Qed.

(** C5: on an input of two components, [splitHDW] converts the two and
    leaves [w] undefined: the missing component is not read as 0. *)
Theorem splitHDW_two_components :
  splitHDW length2em "1em 2em" =
    mkUnknownBBox (Num (length2em "1em")) (Num (length2em "2em")) Undefined ∧
  w (splitHDW length2em "1em 2em") ≠ Num (length2em "0").
Proof. split; [reflexivity | discriminate]. Qed.

(** On a blank input the single, empty component is read as 0, and the
    two others are missing. *)
Example splitHDW_blank :
  splitHDW length2em " " = mkUnknownBBox (Num (length2em "0")) Undefined Undefined.
Proof. reflexivity. Qed.

(** With three components or more, the three metrics are numbers. *)
Lemma splitHDW_numbers (hdw : string) :
  (3 ≤ List.length (split hdw))%nat →
  ∃ h0 d0 w0 : PrimFloat.float,
    splitHDW length2em hdw = mkUnknownBBox (Num h0) (Num d0) (Num w0).
Proof.
  intros Hlen.
  destruct (split hdw) as [|a [|b [|c rest]]] eqn:Hs; simpl in Hlen; try lia.
  eexists _, _, _. by apply (splitHDW_three_components hdw a b c rest).
Qed.

(** ** Wrapping the HTML in a holder *)

Lemma addHDW_skip (this : Wrapper) (n : Node) (styles : StyleList)
    (doc : gmap nat Element) :
  htmlHDW (jax this) ≠ "force" ∨
  (¬ ∃ v, hdw_attribute doc n = Some v ∧ v ≠ "") →
  addHDW em length2em this n styles doc = Some ((n, styles), doc).
Proof.
  intros Hno. unfold addHDW, bind. rewrite getHDW_run.
  change (default "force" None) with "force".
  destruct (hdw_attribute doc n) as [a|] eqn:Ha; [|reflexivity].
  pose proof (hdw_condition a (htmlHDW (jax this)) "force" "force") as Hc.
  destruct (truthy (Some a) && _) eqn:Hb; [|reflexivity].
  destruct Hc as [Hc _]. destruct (Hc eq_refl) as [Hne Hor].
  exfalso. destruct Hno as [Hno|Hno].
  - apply Hno. by destruct Hor.
  - apply Hno. by exists a.
Qed.

Lemma addHDW_wrap (this : Wrapper) (n : Node) (styles : StyleList)
    (doc : gmap nat Element) (hdw : string) (h0 d0 w0 : PrimFloat.float) :
  htmlHDW (jax this) = "force" → hdw_attribute doc n = Some hdw → hdw ≠ "" →
  splitHDW length2em hdw = mkUnknownBBox (Num h0) (Num d0) (Num w0) →
  addHDW em length2em this n styles doc =
  (let! holder := html "mjx-html-holder" (mkDef ∅ ∅) [n] in
   ret (holder, holder_styles em h0 d0 w0 styles)) doc.
Proof.
  intros Hforce Ha Hne Hsplit. unfold addHDW. unfold bind at 1. rewrite getHDW_run.
  change (default "force" None) with "force". rewrite Ha.
  pose proof (hdw_condition hdw (htmlHDW (jax this)) "force" "force") as [_ Hc].
  rewrite Hc by (split; [exact Hne | left; exact Hforce]).
  apply truthy_Some in Hne. rewrite Hne, Hsplit. reflexivity.
Qed.

(** With a cached value that leaves [w] undefined, the call of [em] on it
    throws, and [addHDW] does not return. *)
Lemma addHDW_throws (this : Wrapper) (n : Node) (styles : StyleList)
    (doc : gmap nat Element) (hdw : string) :
  htmlHDW (jax this) = "force" → hdw_attribute doc n = Some hdw → hdw ≠ "" →
  w (splitHDW length2em hdw) = Undefined →
  addHDW em length2em this n styles doc = None.
Proof.
  intros Hforce Ha Hne Hw. unfold addHDW. unfold bind at 1. rewrite getHDW_run.
  change (default "force" None) with "force". rewrite Ha.
  pose proof (hdw_condition hdw (htmlHDW (jax this)) "force" "force") as [_ Hc].
  rewrite Hc by (split; [exact Hne | left; exact Hforce]).
  apply truthy_Some in Hne. rewrite Hne.
  destruct (splitHDW length2em hdw) as [h0 d0 w0]. simpl in Hw. by rewrite Hw.
Qed.

(** C6: when the htmlHDW option is not force, or the HTML has no
    data-mjx-hdw attribute that is not empty, [addHDW] returns the HTML it
    was given and the styles it was given, and the document is as it was:
    no element has been created. *)
Theorem addHDW_unchanged (this : Wrapper) (n : Node) (styles : StyleList)
    (doc : gmap nat Element) :
  htmlHDW (jax this) ≠ "force" ∨
  (¬ ∃ v, hdw_attribute doc n = Some v ∧ v ≠ "") →
  addHDW em length2em this n styles doc = Some ((n, styles), doc).
Proof. apply addHDW_skip. Qed.

(** C4: when the htmlHDW option is force and the HTML has a data-mjx-hdw
    value, not empty, which [splitHDW] reads as the numbers h, d and w,
    [addHDW] sets height to em(h + d), width to em(w), vertical-align to
    em(-d) and position to relative, and returns a new mjx-html-holder
    element with no attributes, whose only child is the HTML. *)
Theorem addHDW_force (this : Wrapper) (n : Node) (styles : StyleList)
    (doc : gmap nat Element) (hdw : string) (h0 d0 w0 : PrimFloat.float) :
  htmlHDW (jax this) = "force" → hdw_attribute doc n = Some hdw → hdw ≠ "" →
  splitHDW length2em hdw = mkUnknownBBox (Num h0) (Num d0) (Num w0) →
  ∃ (holder : Node) (styles' : StyleList) (doc' : gmap nat Element) (e' : Element),
    addHDW em length2em this n styles doc = Some ((holder, styles'), doc') ∧
    styles' !! "height" = Some (em (PrimFloat.add h0 d0)) ∧
    styles' !! "width" = Some (em w0) ∧
    styles' !! "vertical-align" = Some (em (PrimFloat.opp d0)) ∧
    styles' !! "position" = Some "relative" ∧
    (∀ key, key ∉ ["height"; "width"; "vertical-align"; "position"] →
            styles' !! key = styles !! key) ∧
    doc !! holder = None ∧
    doc' !! holder = Some (mkElement "mjx-html-holder" ∅ ∅ [n] None "") ∧
    doc' !! n = Some e' ∧ parent_of e' = Some holder.
Proof.
  intros Hforce Ha Hne Hsplit.
  rewrite (addHDW_wrap _ _ _ _ _ _ _ _ Hforce Ha Hne Hsplit). unfold bind, html.
  assert (∃ ec, doc !! n = Some ec) as [ec Hec].
  { unfold hdw_attribute in Ha. destruct (doc !! n); [by eexists | done]. }
  destruct (node_single "mjx-html-holder" (mkDef ∅ ∅) n ec doc Hec)
    as (doc' & e' & Hrun & Hholder & Hn & Hparent & _).
  rewrite Hrun. eexists (fresh (dom doc)), _, doc', e'.
  split; [reflexivity|]. unfold holder_styles.
  repeat (split; [by simplify_map_eq|]).
  split.
  { intros key Hkey. rewrite !not_elem_of_cons in Hkey.
    destruct Hkey as (? & ? & ? & ? & _). by simplify_map_eq. }
  split; [apply fresh_lookup|]. done.
Qed.

(** ** Building the HTML of the node *)

(** Complete cached metrics that are not empty are three numbers. *)
Lemma complete_hdw_numbers (doc : gmap nat Element) (n : Node) (v : string) :
  complete_hdw doc n = true → hdw_attribute doc n = Some v → v ≠ "" →
  ∃ h0 d0 w0 : PrimFloat.float,
    splitHDW length2em v = mkUnknownBBox (Num h0) (Num d0) (Num w0).
Proof.
  unfold complete_hdw. intros Hcomplete Ha Hv. rewrite Ha in Hcomplete.
  apply orb_true_iff in Hcomplete as [Hempty|Hlen].
  - by apply String.eqb_eq in Hempty.
  - apply splitHDW_numbers. by apply Nat.leb_le.
Qed.

(** [addHDW] on a detached node, with no styles yet, when the option is not
    force or the cached metrics are complete: the node it returns is
    detached, the styles it returns have no font-size, and no node but the
    one it was given has changed. *)
Lemma addHDW_detached (this : Wrapper) (c : Node) (ec : Element)
    (doc : gmap nat Element) :
  doc !! c = Some ec → parent_of ec = None →
  htmlHDW (jax this) ≠ "force" ∨ complete_hdw doc c = true →
  ∃ (x : Node) (st : StyleList) (doc' : gmap nat Element) (ex : Element),
    addHDW em length2em this c ∅ doc = Some ((x, st), doc') ∧
    doc' !! x = Some ex ∧ parent_of ex = None ∧
    st !! "font-size" = None ∧
    (x = c ∨ doc !! x = None) ∧
    (∀ j e, j ≠ c → doc !! j = Some e → doc' !! j = Some e).
Proof.
  intros Hc Hp Hret.
  destruct (decide (htmlHDW (jax this) = "force")) as [Hforce|Hforce];
    [destruct (hdw_attribute doc c) as [v|] eqn:Ha;
     [destruct (decide (v = "")) as [Hv|Hv]|]|].
  2: {
    destruct Hret as [Hnot|Hcomplete]; [done|].
    destruct (complete_hdw_numbers doc c v Hcomplete Ha Hv)
      as (h0 & d0 & w0 & Hsplit).
    rewrite (addHDW_wrap _ _ _ _ _ _ _ _ Hforce Ha Hv Hsplit). unfold bind, html.
    destruct (node_single "mjx-html-holder" (mkDef ∅ ∅) c ec doc Hc)
      as (doc' & e' & Hrun & Hholder & _ & _ & _ & _ & _ & Hframe).
    rewrite Hrun. destruct (Hframe Hp) as [_ Hkeep].
    eexists _, _, _, _. split; [reflexivity|].
    split; [exact Hholder|]. split; [done|].
    split; [by unfold holder_styles; simplify_map_eq|].
    split; [right; apply fresh_lookup | exact Hkeep]. }
  all: rewrite addHDW_skip;
    [ exists c, ∅, doc, ec; repeat split; try done; by left | ].
  - right. intros (v' & Hv' & Hne). rewrite Ha in Hv'. injection Hv' as <-. done.
  - right. intros (v' & Hv' & _). rewrite Ha in Hv'. done.
  - by left.
Qed.

(** What a call of [getHTML] gives, with fuel for the depth of the stored
    HTML, when the option is not force or the cached metrics are complete: a
    new mjx-html element with the variant of the parent as its only
    attribute; no node that was in the document has changed. *)
Lemma getHTML_run (fuel : nat) (this : Wrapper) (doc : gmap nat Element) :
  tree_within fuel doc (node_getHTML this) = true →
  htmlHDW (jax this) ≠ "force" ∨ complete_hdw doc (node_getHTML this) = true →
  ∃ (n : Node) (doc' : gmap nat Element) (child : Node) (st : StyleList)
    (inherited : string),
    getHTML em length2em fixed fontFamily fuel this doc = Some (n, doc') ∧
    doc ⊆ doc' ∧ doc !! n = None ∧
    doc' !! n =
      Some (mkElement "mjx-html" {["variant" := variant (parent this)]}
              (html_styles fixed this st inherited) [child] None "") ∧
    st !! "font-size" = None.
Proof.
  intros Ht Hret.
  destruct (clone_at_total fuel None _ _ Ht) as [[c doc1] Hclone].
  destruct (clone_at_spec _ _ _ _ _ _ Hclone) as (H01 & Hcf & e & cs & He & Hc1).
  assert (Hret1 : htmlHDW (jax this) ≠ "force" ∨ complete_hdw doc1 c = true).
  { destruct Hret as [Hnot|Hcomplete]; [by left | right].
    unfold complete_hdw, hdw_attribute in *. by rewrite Hc1; rewrite He in Hcomplete. }
  destruct (addHDW_detached this c _ doc1 Hc1 eq_refl Hret1)
    as (x & st & docA & ex & Hadd & Hx & Hxp & Hst & Hxc & HframeA).
  destruct (node_single "mjx-html"
              (mkDef {["variant" := variant (parent this)]}
                 (html_styles fixed this st
                    (fontFamily (docA !! math_start_node (jax this) ≫= parent_of) docA)))
              x ex docA Hx)
    as (docB & ex' & Hrun & Hnew & _ & _ & _ & _ & _ & HframeB).
  destruct (HframeB Hxp) as [_ HkeepB].
  assert (Hc0 : doc !! c = None) by (rewrite Hcf; apply fresh_lookup).
  assert (Hkeep : ∀ j ej, doc !! j = Some ej → docA !! j = Some ej ∧ j ≠ x).
  { intros j ej Hj.
    assert (Hj1 : doc1 !! j = Some ej) by (by eapply lookup_weaken).
    assert (Hjc : j ≠ c) by (intros ->; by rewrite Hc0 in Hj).
    split; [by apply HframeA|].
    intros ->. destruct Hxc as [->|Hx1]; [done|]. by rewrite Hx1 in Hj1. }
  eexists (fresh (dom docA)), docB, x, st, _.
  split; [|split; [|split; [|split; [exact Hnew | exact Hst]]]].
  - unfold getHTML, bind, clone. rewrite Hclone, Hadd. simpl. exact Hrun.
  - apply map_subseteq_spec. intros j ej Hj.
    destruct (Hkeep j ej Hj) as [HjA Hjx]. by apply HkeepB.
  - destruct (doc !! fresh (dom docA)) as [ej|] eqn:Hj; [|done].
    destruct (Hkeep _ _ Hj) as [HjA _]. by rewrite fresh_lookup in HjA.
Qed.

(** With the option force and a cached value, not empty, of fewer than
    three components, [getHTML] does not return, whatever the fuel: the call
    of [em] in [addHDW] throws. *)
Lemma getHTML_throws (fuel : nat) (this : Wrapper) (doc : gmap nat Element)
    (hdw : string) :
  htmlHDW (jax this) = "force" →
  hdw_attribute doc (node_getHTML this) = Some hdw → hdw ≠ "" →
  List.length (split hdw) < 3 →
  getHTML em length2em fixed fontFamily fuel this doc = None.
Proof.
  intros Hforce Ha Hne Hlen. unfold getHTML, bind, clone.
  destruct (clone_at fuel None (node_getHTML this) doc) as [[c doc1]|] eqn:Hclone;
    [|reflexivity].
  destruct (clone_at_spec _ _ _ _ _ _ Hclone) as (_ & _ & e & cs & He & Hc1).
  assert (Hattr : hdw_attribute doc1 c = Some hdw).
  { rewrite <- Ha. unfold hdw_attribute. by rewrite Hc1, He. }
  by rewrite (addHDW_throws this c ∅ doc1 hdw Hforce Hattr Hne
                (splitHDW_short hdw Hlen)).
Qed.

(** With fuel for the depth of the stored HTML, [getHTML] returns exactly
    when the option is not force or the cached metrics are complete. *)
Lemma getHTML_returns_iff (fuel : nat) (this : Wrapper) (doc : gmap nat Element) :
  tree_within fuel doc (node_getHTML this) = true →
  is_Some (getHTML em length2em fixed fontFamily fuel this doc) ↔
  htmlHDW (jax this) ≠ "force" ∨ complete_hdw doc (node_getHTML this) = true.
Proof.
  intros Ht. split.
  - intros Hsome.
    destruct (decide (htmlHDW (jax this) = "force")) as [Hforce|Hforce]; [|by left].
    right. unfold complete_hdw.
    destruct (hdw_attribute doc (node_getHTML this)) as [v|] eqn:Ha; [|done].
    destruct (String.eqb_spec v "") as [Hv|Hv]; [reflexivity|].
    destruct (le_lt_dec 3 (List.length (split v))) as [Hlen|Hlen].
    + apply Nat.leb_le in Hlen. by rewrite Hlen.
    + rewrite (getHTML_throws fuel this doc v Hforce Ha Hv Hlen) in Hsome.
      by destruct Hsome.
  - intros Hret.
    destruct (getHTML_run fuel this doc Ht Hret) as (n & doc' & _ & _ & _ & Hrun & _).
    rewrite Hrun. by eexists.
Qed.

(** C7: when the option is not force or the cached metrics are complete,
    [getHTML] returns an mjx-html element whose font-size style is
    fixed(100 / scale, 1) followed by a percent sign when the scale of the
    metrics differs from 1, and which has no font-size style when the scale
    is 1. *)
Theorem getHTML_font_size (fuel : nat) (this : Wrapper) (doc : gmap nat Element) :
  tree_within fuel doc (node_getHTML this) = true →
  htmlHDW (jax this) ≠ "force" ∨ complete_hdw doc (node_getHTML this) = true →
  ∃ (n : Node) (doc' : gmap nat Element) (e : Element),
    getHTML em length2em fixed fontFamily fuel this doc = Some (n, doc') ∧
    doc' !! n = Some e ∧ kind e = "mjx-html" ∧
    styles e !! "font-size" =
      (if js_strict_neq (scale (metrics (jax this))) 1%float
       then Some (fixed (PrimFloat.div 100%float (scale (metrics (jax this)))) 1%float
                  +:+ "%")
       else None) ∧
    (scale (metrics (jax this)) = 1%float → styles e !! "font-size" = None).
Proof.
  intros Ht Hret.
  destruct (getHTML_run fuel this doc Ht Hret)
    as (n & doc' & child & st & inherited & Hrun & _ & _ & Hn & Hst).
  eexists n, doc', _. split; [exact Hrun|]. split; [exact Hn|].
  split; [reflexivity|]. simpl. unfold html_styles.
  assert (Hfs : (<["font-family" :=
                     js_or (styles_font_family (parent this))
                       (js_or (Some (family (metrics (jax this))))
                          (js_or (Some inherited) "initial"))]>
                   (if js_strict_neq (scale (metrics (jax this))) 1%float
                    then <["font-size" :=
                             fixed (PrimFloat.div 100%float (scale (metrics (jax this))))
                                   1%float +:+ "%"]> st
                    else st)) !! "font-size" =
                (if js_strict_neq (scale (metrics (jax this))) 1%float
                 then Some (fixed (PrimFloat.div 100%float (scale (metrics (jax this))))
                                  1%float +:+ "%")
                 else None)).
  { rewrite lookup_insert_ne by done.
    destruct (js_strict_neq _ _); [by rewrite lookup_insert_eq | exact Hst]. }
  split; [exact Hfs|].
  intros Hone. rewrite Hfs, Hone. reflexivity.
Qed.


(** ** The bounding box *)

(** Where [computeBBox] measures, [addHDW] adds no holder: the option is
    not force, or there is no cached value that is not empty. *)
Lemma measured_returns (this : Wrapper) (doc : gmap nat Element) :
  (¬ ∃ hdw, hdw_attribute doc (node_getHTML this) = Some hdw ∧ hdw ≠ "" ∧
            (htmlHDW (jax this) = "use" ∨ htmlHDW (jax this) = "force")) →
  htmlHDW (jax this) ≠ "force" ∨ complete_hdw doc (node_getHTML this) = true.
Proof.
  intros Hno.
  destruct (decide (htmlHDW (jax this) = "force")) as [Hforce|Hforce]; [|by left].
  right. unfold complete_hdw.
  destruct (hdw_attribute doc (node_getHTML this)) as [v|]; [|done].
  destruct (String.eqb_spec v "") as [Hv|Hv]; [done|].
  exfalso. apply Hno. exists v. split; [done|]. split; [done | by right].
Qed.

(** C1: when the stored HTML has a data-mjx-hdw value that is not empty and
    the htmlHDW option is use or force, [computeBBox] sets w, h and d of the
    bbox from [splitHDW] of that value, without building or measuring
    anything; in every other case it sets them to what [measureXMLnode]
    measures on the element [getHTML] builds. *)
Theorem computeBBox_spec (fuel : nat) (this : Wrapper) (bbox : BBox)
    (doc : gmap nat Element) :
  (∀ hdw, hdw_attribute doc (node_getHTML this) = Some hdw → hdw ≠ "" →
          htmlHDW (jax this) = "use" ∨ htmlHDW (jax this) = "force" →
          computeBBox em length2em fixed fontFamily measureXMLnode fuel this bbox doc =
          Some (set_hdw (splitHDW length2em hdw) bbox, doc)) ∧
  ((¬ ∃ hdw, hdw_attribute doc (node_getHTML this) = Some hdw ∧ hdw ≠ "" ∧
             (htmlHDW (jax this) = "use" ∨ htmlHDW (jax this) = "force")) →
   tree_within fuel doc (node_getHTML this) = true →
   ∃ (n : Node) (doc1 : gmap nat Element),
     getHTML em length2em fixed fontFamily fuel this doc = Some (n, doc1) ∧
     computeBBox em length2em fixed fontFamily measureXMLnode fuel this bbox doc =
     Some (set_hdw (measureXMLnode n doc1).1 bbox, (measureXMLnode n doc1).2)).
Proof.
  split.
  - intros hdw Ha Hne Hor.
    unfold computeBBox. unfold bind at 1. rewrite getHDW_run.
    change (default "use" (Some "force")) with "force". rewrite Ha.
    pose proof (hdw_condition hdw (htmlHDW (jax this)) "use" "force") as [_ Hc].
    rewrite Hc by (split; [exact Hne | exact Hor]).
    apply truthy_Some in Hne. rewrite Hne.
    unfold bind, ret, set_hdw. by destruct (splitHDW length2em hdw).
  - intros Hno Ht.
    destruct (getHTML_run fuel this doc Ht (measured_returns this doc Hno))
      as (n & doc1 & child & st & inherited & Hrun & _).
    exists n, doc1. split; [exact Hrun|].
    unfold computeBBox. unfold bind at 1. rewrite getHDW_run.
    change (default "use" (Some "force")) with "force".
    assert (Hmeasure :
      (let! '(mkUnknownBBox h d w) :=
         (let! n := getHTML em length2em fixed fontFamily fuel this in
          λ doc, Some (measureXMLnode n doc)) in
       ret (mkBBox w h d (bbox_L bbox) (bbox_R bbox) (bbox_pwidth bbox))) doc =
      Some (set_hdw (measureXMLnode n doc1).1 bbox, (measureXMLnode n doc1).2)).
    { unfold bind. rewrite Hrun. unfold ret, set_hdw.
      by destruct (measureXMLnode n doc1) as [[h0 d0 w0] doc2]. }
    destruct (hdw_attribute doc (node_getHTML this)) as [a|] eqn:Ha;
      [|exact Hmeasure].
    pose proof (hdw_condition a (htmlHDW (jax this)) "use" "force") as [Hc _].
    destruct (truthy (Some a) && _) eqn:Hb; [|exact Hmeasure].
    exfalso. apply Hno. exists a. destruct (Hc eq_refl). done.
Qed.

End MixinProperties.

Example sample_getHTML :
  ∃ doc',
    HtmlNode.getHTML Sample.em Sample.length2em Sample.fixed Sample.fontFamily 2
      (Sample.wrapper "force" 2%float) Sample.doc = Some (7, doc') ∧
    doc' !! 7 =
      Some (Dom.mkElement "mjx-html" {["variant" := "normal"]}
              (<["font-family" := "serif"]>
                 (<["font-size" := "50%"]>
                    (<["position" := "relative"]>
                       (<["vertical-align" := "-em"]>
                          (<["width" := "+em"]>
                             (<["height" := "+em"]> ∅))))))
              [6] None "") ∧
    doc' !! 6 = Some (Dom.mkElement "mjx-html-holder" ∅ ∅ [4] (Some 7) "") ∧
    doc' !! 4 =
      Some (Dom.mkElement "span" {["data-mjx-hdw" := "1em 0.5em 2em"]} ∅ [5]
              (Some 6) "") ∧
    doc' !! 5 = Some (Dom.mkElement "#text" ∅ ∅ [] (Some 4) "n") ∧
    doc' !! 0 = Sample.doc !! 0.
Proof. eexists. split; [vm_compute; reflexivity|]. vm_compute. repeat split. Qed.

(** With a cached value of two components and the option force, [addHDW]
    and [getHTML] do not return. *)
Example sample_short_hdw :
  let doc := <[0 := Dom.mkElement "span" {["data-mjx-hdw" := "1em 2em"]} ∅ [1] None ""]>
               Sample.doc in
  HtmlNode.addHDW Sample.em Sample.length2em (Sample.wrapper "force" 1%float)
    0 ∅ doc = None ∧
  HtmlNode.getHTML Sample.em Sample.length2em Sample.fixed Sample.fontFamily 2
    (Sample.wrapper "force" 1%float) doc = None.
Proof. split; vm_compute; reflexivity. Qed.

(** ** The theorems at the worked instance *)

(** With the option use, [addHDW] hands the span and the styles back. *)
Lemma addHDW_unchanged_witness :
  HtmlNode.addHDW Sample.em Sample.length2em (Sample.wrapper "use" 1%float)
    0 ∅ Sample.doc = Some ((0, ∅), Sample.doc).
Proof. apply addHDW_unchanged. left. intros H. vm_compute in H. discriminate H. Defined.

(** With the option force, [addHDW] wraps the span, whose cached metrics
    are 1em, 0.5em and 2em, in a holder. *)
Lemma addHDW_force_witness :
  ∃ (holder : Node) (styles' : StyleList) (doc' : gmap nat Dom.Element),
    HtmlNode.addHDW Sample.em Sample.length2em (Sample.wrapper "force" 1%float)
      0 ∅ Sample.doc = Some ((holder, styles'), doc') ∧
    styles' !! "height" = Some "+em" ∧
    styles' !! "width" = Some "+em" ∧
    styles' !! "vertical-align" = Some "-em" ∧
    styles' !! "position" = Some "relative" ∧
    Sample.doc !! holder = None ∧
    doc' !! holder = Some (Dom.mkElement "mjx-html-holder" ∅ ∅ [0] None "").
Proof.
  destruct (addHDW_force Sample.em Sample.length2em
              (Sample.wrapper "force" 1%float) 0 ∅ Sample.doc "1em 0.5em 2em"
              1%float 0.5%float 2%float)
    as (holder & styles' & doc' & e' & Hrun & Hh & Hw & Hv & Hp & _ & Hfree & Hnew & _).
  - reflexivity.
  - vm_compute. reflexivity.
  - discriminate.
  - reflexivity.
  - exists holder, styles', doc'. repeat split; assumption.
Defined.

(** With a scale of 2, the mjx-html element has a font-size of 50%. *)
Lemma getHTML_font_size_witness :
  ∃ (n : Node) (doc' : gmap nat Dom.Element) (e : Dom.Element),
    HtmlNode.getHTML Sample.em Sample.length2em Sample.fixed Sample.fontFamily 2
      (Sample.wrapper "force" 2%float) Sample.doc = Some (n, doc') ∧
    doc' !! n = Some e ∧ Dom.kind e = "mjx-html" ∧
    Dom.styles e !! "font-size" = Some "50%".
Proof.
  destruct (getHTML_font_size Sample.em Sample.length2em Sample.fixed
              Sample.fontFamily 2 (Sample.wrapper "force" 2%float) Sample.doc)
    as (n & doc' & e & Hrun & Hn & Hkind & Hfs & _).
  - vm_compute. reflexivity.
  - right. vm_compute. reflexivity.
  - exists n, doc', e. repeat split; assumption.
Defined.


(** With the option use the bbox is read from the cached metrics, with no
    fuel at all; with the option ignore it is measured. *)
Lemma computeBBox_spec_witness :
  HtmlNode.computeBBox Sample.em Sample.length2em Sample.fixed Sample.fontFamily
    Sample.measureXMLnode 0 (Sample.wrapper "use" 1%float) Sample.bbox Sample.doc =
  Some (HtmlNode.mkBBox (Num 2%float) (Num 1%float) (Num 0.5%float)
          0%float 0%float "", Sample.doc) ∧
  ∃ (n : Node) (doc1 : gmap nat Dom.Element),
    HtmlNode.getHTML Sample.em Sample.length2em Sample.fixed Sample.fontFamily 2
      (Sample.wrapper "ignore" 1%float) Sample.doc = Some (n, doc1) ∧
    HtmlNode.computeBBox Sample.em Sample.length2em Sample.fixed Sample.fontFamily
      Sample.measureXMLnode 2 (Sample.wrapper "ignore" 1%float) Sample.bbox
      Sample.doc =
    Some (HtmlNode.mkBBox (Num 3%float) (Num 1%float) (Num 0%float)
            0%float 0%float "", doc1).
Proof.
  split.
  - apply (proj1 (computeBBox_spec Sample.em Sample.length2em Sample.fixed
                    Sample.fontFamily Sample.measureXMLnode 0
                    (Sample.wrapper "use" 1%float) Sample.bbox Sample.doc)
             "1em 0.5em 2em").
    + vm_compute. reflexivity.
    + discriminate.
    + left. reflexivity.
  - apply (proj2 (computeBBox_spec Sample.em Sample.length2em Sample.fixed
                    Sample.fontFamily Sample.measureXMLnode 2
                    (Sample.wrapper "ignore" 1%float) Sample.bbox Sample.doc)).
    + intros (hdw & _ & _ & [Hopt|Hopt]); vm_compute in Hopt; discriminate Hopt.
    + vm_compute. reflexivity.
Defined.

(* ================================================================= *)
(** * Further properties *)

(** ** The registry as a map *)

Lemma object_literal_lookup_Some {V : Type} (props : list (string * V))
    (k : string) (v : V) :
  object_literal props !! k = Some v → (k, v) ∈ props.
Proof.
  induction props as [|p props IH] using rev_ind; intros Hk.
  - unfold object_literal in Hk. simpl in Hk. by rewrite lookup_empty in Hk.
  - rewrite object_literal_snoc in Hk. apply elem_of_app.
    destruct p as [k' v']. simpl in Hk.
    destruct (decide (k' = k)) as [->|Hne].
    + rewrite lookup_insert_eq in Hk. injection Hk as <-.
      right. by apply list_elem_of_singleton.
    + rewrite lookup_insert_ne in Hk by done. left. by apply IH.
Qed.

Lemma object_literal_lookup_None {V : Type} (props : list (string * V)) (k : string) :
  object_literal props !! k = None ↔ k ∉ props.*1.
Proof.
  induction props as [|p props IH] using rev_ind.
  - unfold object_literal. simpl.
    split; [intros _; apply not_elem_of_nil | intros _; apply lookup_empty].
  - rewrite object_literal_snoc, fmap_app, not_elem_of_app. simpl.
    rewrite list_elem_of_singleton.
    destruct (decide (p.1 = k)) as [Heq|Hne].
    + rewrite <- Heq, lookup_insert_eq. split; [done | by intros [_ ?]].
    + rewrite lookup_insert_ne by done. rewrite IH. split; [|by intros [? _]].
      intros Hk. split; [done | by intros ->].
Qed.

Lemma object_literal_size {V : Type} (props : list (string * V)) :
  NoDup props.*1 → size (object_literal props) = length props.
Proof.
  induction props as [|p props IH] using rev_ind; intros Hnd.
  - unfold object_literal. simpl. apply map_size_empty.
  - rewrite object_literal_snoc, length_app. simpl.
    rewrite fmap_app in Hnd. apply NoDup_app in Hnd as (Hnd & Hfresh & _).
    rewrite map_size_insert_None.
    + rewrite IH by done. lia.
    + apply object_literal_lookup_None. intros Hin.
      apply (Hfresh _ Hin). simpl. apply list_elem_of_singleton. done.
Qed.

(** X1: whatever kinds the classes declare, a class found in the registry
    under a key has that key as its kind. *)
Theorem MML_lookup_kind (kind : Mml.MmlNodeClass → string) (k : string)
    (C : Mml.MmlNodeClass) :
  Mml.MML kind !! k = Some C → kind C = k.
Proof.
  rewrite MML_as_list. intros Hk.
  apply object_literal_lookup_Some, list_elem_of_fmap in Hk as (C' & [= -> ->] & _).
  reflexivity.
Qed.

Lemma MML_lookup_kind_witness :
  Mml.kind Mml.MmlMunderover = "munderover".
Proof.
  apply (MML_lookup_kind Mml.kind "munderover" Mml.MmlMunderover).
  vm_compute. reflexivity.
Defined.

(** X2: whatever kinds the classes declare, the registry has no entry of
    its own under a key exactly when no class of the literal has that key
    as its kind.  (The map holds the own properties of the object; what a
    key such as toString finds on the prototype of the object is no entry
    of the registry.) *)
Theorem MML_lookup_None (kind : Mml.MmlNodeClass → string) (k : string) :
  Mml.MML kind !! k = None ↔ ∀ C : Mml.MmlNodeClass, kind C ≠ k.
Proof.
  rewrite MML_as_list, object_literal_lookup_None.
  rewrite <- list_fmap_compose. split.
  - intros Hk C Heq. apply Hk. apply list_elem_of_fmap.
    exists C. split; [done | apply classes_complete].
  - intros Hall Hin. apply list_elem_of_fmap in Hin as (C & Heq & _).
    by apply (Hall C).
Qed.

(** X3: when no two classes declare the same kind, the registry has as
    many entries as the literal has lines, forty. *)
Theorem MML_size (kind : Mml.MmlNodeClass → string) :
  NoDup (kind <$> Mml.classes) → size (Mml.MML kind) = 40.
Proof.
  intros Hnd. rewrite MML_as_list, object_literal_size.
  - by rewrite length_fmap.
  - by rewrite <- list_fmap_compose.
Qed.

Lemma MML_size_witness : size (Mml.MML Mml.kind) = 40.
Proof. apply MML_size. apply kind_NoDup. Defined.

(** ** Creating the document *)

Section CreateProperties.

Variable parseFromString : string → string → completion value.
Variable OptionList : Type.
Variable HTMLDocumentClass : Type.
Variable HTMLDocument : value → OptionList → completion HTMLDocumentClass.

(** X4: on an input that [HandlesDocument] accepts, [Create] builds the
    HTMLDocument over a value that is an instance of one of the three
    constructors: the input itself, or the document it parses to. *)
Theorem Create_handled (document : value) (options : OptionList) :
  Handler.HandlesDocument parseFromString document = Normal true →
  ∃ doc : value,
    Handler.is_handled doc = true ∧
    (doc = document ∨
     ∃ s, document = VString s ∧ parseFromString s "text/html" = Normal doc) ∧
    Handler.Create parseFromString OptionList HTMLDocumentClass HTMLDocument
      document options = HTMLDocument doc options.
Proof using Type.
  unfold Handler.HandlesDocument, Handler.Create, Handler.is_handled.
  intros Hh.
  assert (Hcases : ∀ v : value,
             (if instanceof v DOCUMENT then Normal true
              else if instanceof v HTMLELEMENT then Normal true
                   else if instanceof v FRAGMENT then Normal true
                        else Normal false) = Normal true →
             instanceof v DOCUMENT || instanceof v HTMLELEMENT
             || instanceof v FRAGMENT = true).
  { intros v. by destruct (instanceof v DOCUMENT), (instanceof v HTMLELEMENT),
                (instanceof v FRAGMENT). }
  destruct document as [| |b|x|s|chain];
    try (eexists; split; [by apply Hcases | split; [by left | reflexivity]]).
  destruct (parseFromString s "text/html") as [doc|err] eqn:Hp.
  - exists doc. split; [by apply Hcases|]. split; [|reflexivity].
    right. by exists s.
  - simpl in Hh. discriminate Hh.
Qed.

(** X5: a string whose parse throws makes [Create] throw the same
    exception, where [HandlesDocument] catches it and answers false. *)
Theorem Create_parse_error (s : string) (err : value) (options : OptionList) :
  parseFromString s "text/html" = Throw err →
  Handler.Create parseFromString OptionList HTMLDocumentClass HTMLDocument
    (VString s) options = Throw err ∧
  Handler.HandlesDocument parseFromString (VString s) = Normal false.
Proof using Type.
  intros Hp. unfold Handler.Create, Handler.HandlesDocument. rewrite Hp. done.
Qed.

End CreateProperties.

(** ** The document after a node is built *)

Ltac store_lookup :=
  repeat first
    [ rewrite lookup_alter_eq | rewrite lookup_insert_eq
    | rewrite lookup_alter_ne by done | rewrite lookup_insert_ne by done ].

Section FurtherAdaptor.

Import Dom HtmlNode.

(** The document [node] leaves when its one child was detached: the
    document it was given, with the new element added and the child given
    the new element as parent. *)
Lemma node_detached (k : string) (def : Def) (c : Node) (ec : Element)
    (doc : gmap nat Element) :
  doc !! c = Some ec → parent_of ec = None →
  node k def [c] doc =
  Some (fresh (dom doc),
        <[c := set_parent (Some (fresh (dom doc))) ec]>
          (<[fresh (dom doc) :=
               mkElement k (def_attributes def) (def_style def) [c] None ""]> doc)).
Proof.
  intros Hc Hp. pose proof (lookup_ne_fresh _ _ _ Hc) as Hne.
  set (n := fresh (dom doc)) in *.
  assert (Hne' : n ≠ c) by done.
  unfold node, bind, create, setAttributes, ret. simpl.
  fold n. unfold append, bind, remove.
  store_lookup. rewrite Hc. simpl. rewrite Hp.
  f_equal. f_equal. apply map_eq. intros j.
  destruct (decide (j = c)) as [->|Hjc]; [|destruct (decide (j = n)) as [->|Hjn]].
  - store_lookup. rewrite Hc. reflexivity.
  - assert (c ≠ n) by done. store_lookup. simpl. unfold set_def. simpl.
    by rewrite !(right_id_L ∅ (∪)).
  - assert (c ≠ j) by done. assert (n ≠ j) by done. by store_lookup.
Qed.

End FurtherAdaptor.

(** ** The tree that [getHTML] builds *)

Section FurtherMixin.

#[local] Set Default Proof Using "Type".

Import Dom HtmlNode.

Variable em : PrimFloat.float → string.
Variable length2em : string → PrimFloat.float.
Variable fixed : PrimFloat.float → PrimFloat.float → string.
Variable fontFamily : option Node → gmap nat Element → string.
Variable measureXMLnode : Node → gmap nat Element → UnknownBBox * gmap nat Element.

(** The run of [getHTML] when [addHDW] adds no holder. *)
Lemma getHTML_plain_run (fuel : nat) (this : Wrapper) (doc : gmap nat Element) :
  tree_within fuel doc (node_getHTML this) = true →
  htmlHDW (jax this) ≠ "force" ∨
  (¬ ∃ v, hdw_attribute doc (node_getHTML this) = Some v ∧ v ≠ "") →
  ∃ (n : Node) (doc' : gmap nat Element) (c : Node) (e0 : Element)
    (cs : list Node) (inherited : string),
    getHTML em length2em fixed fontFamily fuel this doc = Some (n, doc') ∧
    doc !! node_getHTML this = Some e0 ∧
    doc !! n = None ∧ doc !! c = None ∧ n ≠ c ∧
    doc' !! n =
      Some (mkElement "mjx-html" {["variant" := variant (parent this)]}
              (html_styles fixed this ∅ inherited) [c] None "") ∧
    doc' !! c =
      Some (mkElement (kind e0) (attributes e0) (styles e0) cs (Some n) (text e0)).
Proof.
  intros Ht Hno.
  destruct (clone_at_total fuel None _ _ Ht) as [[c doc1] Hclone].
  destruct (clone_at_spec _ _ _ _ _ _ Hclone) as (H01 & Hcf & e0 & cs & He & Hc1).
  assert (Hattr : hdw_attribute doc1 c = hdw_attribute doc (node_getHTML this)).
  { unfold hdw_attribute. by rewrite Hc1, He. }
  assert (Hadd : addHDW em length2em this c ∅ doc1 = Some ((c, ∅), doc1)).
  { apply addHDW_skip. by rewrite Hattr. }
  set (n := fresh (dom doc1)).
  pose proof (node_detached "mjx-html"
                (mkDef {["variant" := variant (parent this)]}
                   (html_styles fixed this ∅
                      (fontFamily (doc1 !! math_start_node (jax this) ≫= parent_of) doc1)))
                c _ doc1 Hc1 eq_refl) as Hrun.
  fold n in Hrun.
  assert (Hnc : n ≠ c).
  { intros Heq. pose proof (fresh_lookup doc1) as Hf. fold n in Hf.
    rewrite Heq, Hc1 in Hf. done. }
  eexists n, _, c, e0, cs, _.
  split; [unfold getHTML, bind, clone; rewrite Hclone, Hadd; simpl; exact Hrun|].
  split; [exact He|]. split.
  { destruct (doc !! n) as [en|] eqn:Hn; [|done].
    pose proof (lookup_weaken _ _ _ _ Hn H01) as Hn1.
    unfold n in Hn1. by rewrite fresh_lookup in Hn1. }
  split; [rewrite Hcf; apply fresh_lookup|]. split; [exact Hnc|].
  assert (c ≠ n) by done.
  split; by store_lookup.
Qed.

(** The run of [getHTML] when [addHDW] adds a holder. *)
Lemma getHTML_holder_run (fuel : nat) (this : Wrapper) (doc : gmap nat Element)
    (hdw : string) (h0 d0 w0 : PrimFloat.float) :
  tree_within fuel doc (node_getHTML this) = true →
  htmlHDW (jax this) = "force" →
  hdw_attribute doc (node_getHTML this) = Some hdw → hdw ≠ "" →
  splitHDW length2em hdw = mkUnknownBBox (Num h0) (Num d0) (Num w0) →
  ∃ (n : Node) (doc' : gmap nat Element) (holder c : Node) (e0 : Element)
    (cs : list Node) (inherited : string),
    getHTML em length2em fixed fontFamily fuel this doc = Some (n, doc') ∧
    doc !! node_getHTML this = Some e0 ∧
    doc !! n = None ∧ doc !! holder = None ∧ doc !! c = None ∧
    n ≠ holder ∧ n ≠ c ∧ holder ≠ c ∧
    doc' !! n =
      Some (mkElement "mjx-html" {["variant" := variant (parent this)]}
              (html_styles fixed this
                 (holder_styles em h0 d0 w0 ∅) inherited)
              [holder] None "") ∧
    doc' !! holder = Some (mkElement "mjx-html-holder" ∅ ∅ [c] (Some n) "") ∧
    doc' !! c =
      Some (mkElement (kind e0) (attributes e0) (styles e0) cs (Some holder)
              (text e0)).
Proof.
  intros Ht Hforce Ha Hne Hsplit.
  destruct (clone_at_total fuel None _ _ Ht) as [[c doc1] Hclone].
  destruct (clone_at_spec _ _ _ _ _ _ Hclone) as (H01 & Hcf & e0 & cs & He & Hc1).
  assert (Hattr : hdw_attribute doc1 c = Some hdw).
  { rewrite <- Ha. unfold hdw_attribute. by rewrite Hc1, He. }
  set (hl := fresh (dom doc1)).
  pose proof (node_detached "mjx-html-holder" (mkDef ∅ ∅) c _ doc1 Hc1 eq_refl)
    as Hwrap.
  fold hl in Hwrap. simpl in Hwrap.
  set (doc2 := <[c := _]> (<[hl := _]> doc1)) in Hwrap.
  assert (Hhc : hl ≠ c).
  { intros Heq. pose proof (fresh_lookup doc1) as Hf. fold hl in Hf.
    rewrite Heq, Hc1 in Hf. done. }
  assert (Hch : c ≠ hl) by done.
  assert (Hadd : addHDW em length2em this c ∅ doc1 =
                 Some ((hl, holder_styles em h0 d0 w0 ∅), doc2)).
  { rewrite (addHDW_wrap _ _ _ _ _ _ _ _ _ _ Hforce Hattr Hne Hsplit).
    unfold bind, html. rewrite Hwrap. reflexivity. }
  assert (Hhl2 : doc2 !! hl = Some (mkElement "mjx-html-holder" ∅ ∅ [c] None "")).
  { unfold doc2. by store_lookup. }
  set (n := fresh (dom doc2)).
  pose proof (node_detached "mjx-html"
                (mkDef {["variant" := variant (parent this)]}
                   (html_styles fixed this
                      (holder_styles em h0 d0 w0 ∅)
                      (fontFamily (doc2 !! math_start_node (jax this) ≫= parent_of) doc2)))
                hl _ doc2 Hhl2 eq_refl) as Hrun.
  fold n in Hrun.
  assert (Hc2 : doc2 !! c =
                Some (mkElement (kind e0) (attributes e0) (styles e0) cs (Some hl)
                        (text e0))).
  { unfold doc2. by store_lookup. }
  assert (Hnh : n ≠ hl).
  { intros Heq. pose proof (fresh_lookup doc2) as Hf. fold n in Hf.
    rewrite Heq, Hhl2 in Hf. done. }
  assert (Hnc : n ≠ c).
  { intros Heq. pose proof (fresh_lookup doc2) as Hf. fold n in Hf.
    rewrite Heq, Hc2 in Hf. done. }
  assert (Hc0 : doc !! c = None) by (rewrite Hcf; apply fresh_lookup).
  assert (Hh0 : doc !! hl = None).
  { destruct (doc !! hl) as [eh|] eqn:Hh; [|done].
    pose proof (lookup_weaken _ _ _ _ Hh H01) as Hh1.
    unfold hl in Hh1. by rewrite fresh_lookup in Hh1. }
  eexists n, _, hl, c, e0, cs, _.
  split; [unfold getHTML, bind, clone; rewrite Hclone, Hadd; simpl; exact Hrun|].
  split; [exact He|]. split.
  { destruct (doc !! n) as [en|] eqn:Hn; [|done].
    assert (Hn2 : doc2 !! n = Some en).
    { assert (c ≠ n) by (intros <-; by rewrite Hc0 in Hn).
      assert (hl ≠ n) by (intros <-; by rewrite Hh0 in Hn).
      unfold doc2. store_lookup. by eapply lookup_weaken. }
    unfold n in Hn2. by rewrite fresh_lookup in Hn2. }
  split; [exact Hh0|]. split; [exact Hc0|].
  split; [exact Hnh|]. split; [exact Hnc|]. split; [exact Hhc|].
  assert (hl ≠ n) by done.
  split; [by store_lookup|]. split; [by store_lookup|].
  store_lookup. exact Hc2.
Qed.

(** X6: when the htmlHDW option is not force, or the stored HTML has no
    data-mjx-hdw value that is not empty, the only child of the mjx-html
    element [getHTML] returns is a new copy of the stored node, with its
    kind, attributes, styles and text, whose parent is the mjx-html element;
    and the element has no style but font-size and font-family. *)
Theorem getHTML_without_holder (fuel : nat) (this : Wrapper)
    (doc : gmap nat Element) :
  tree_within fuel doc (node_getHTML this) = true →
  htmlHDW (jax this) ≠ "force" ∨
  (¬ ∃ v, hdw_attribute doc (node_getHTML this) = Some v ∧ v ≠ "") →
  ∃ (n : Node) (doc' : gmap nat Element) (c : Node) (e0 ec e : Element),
    getHTML em length2em fixed fontFamily fuel this doc = Some (n, doc') ∧
    doc !! node_getHTML this = Some e0 ∧
    doc' !! n = Some e ∧ kind e = "mjx-html" ∧ children e = [c] ∧
    parent_of e = None ∧
    (∀ key, key ≠ "font-size" → key ≠ "font-family" → styles e !! key = None) ∧
    c ≠ node_getHTML this ∧ doc !! c = None ∧
    doc' !! c = Some ec ∧ parent_of ec = Some n ∧
    kind ec = kind e0 ∧ attributes ec = attributes e0 ∧
    styles ec = styles e0 ∧ text ec = text e0.
Proof.
  intros Ht Hno.
  destruct (getHTML_plain_run fuel this doc Ht Hno)
    as (n & doc' & c & e0 & cs & inherited & Hrun & He & _ & Hc0 & _ & Hn & Hc).
  eexists n, doc', c, e0, _, _.
  split; [exact Hrun|]. split; [exact He|]. split; [exact Hn|].
  split; [reflexivity|]. split; [reflexivity|]. split; [reflexivity|].
  split.
  { intros key Hfs Hff. simpl. unfold html_styles.
    rewrite lookup_insert_ne by done.
    destruct (js_strict_neq _ _); [rewrite lookup_insert_ne by done|];
      apply lookup_empty. }
  split; [intros ->; by rewrite He in Hc0|]. split; [exact Hc0|].
  split; [exact Hc|]. repeat split.
Qed.

(** X7: when the htmlHDW option is force and the stored HTML has a
    data-mjx-hdw value of three components or more, the only child of the mjx-html
    element [getHTML] returns is a new mjx-html-holder element with no
    attributes and no styles, whose only child is a new copy of the stored
    node, with its kind, attributes, styles and text. *)
Theorem getHTML_with_holder (fuel : nat) (this : Wrapper)
    (doc : gmap nat Element) (hdw : string) :
  tree_within fuel doc (node_getHTML this) = true →
  htmlHDW (jax this) = "force" →
  hdw_attribute doc (node_getHTML this) = Some hdw → hdw ≠ "" →
  (3 ≤ List.length (split hdw))%nat →
  ∃ (n : Node) (doc' : gmap nat Element) (holder c : Node) (e0 ec e : Element),
    getHTML em length2em fixed fontFamily fuel this doc = Some (n, doc') ∧
    doc !! node_getHTML this = Some e0 ∧
    doc' !! n = Some e ∧ kind e = "mjx-html" ∧ children e = [holder] ∧
    parent_of e = None ∧
    doc !! holder = None ∧
    doc' !! holder = Some (mkElement "mjx-html-holder" ∅ ∅ [c] (Some n) "") ∧
    c ≠ node_getHTML this ∧ doc !! c = None ∧
    doc' !! c = Some ec ∧ parent_of ec = Some holder ∧
    kind ec = kind e0 ∧ attributes ec = attributes e0 ∧
    styles ec = styles e0 ∧ text ec = text e0.
Proof.
  intros Ht Hforce Ha Hne Hlen.
  destruct (splitHDW_numbers length2em hdw Hlen) as (h0 & d0 & w0 & Hsplit).
  destruct (getHTML_holder_run fuel this doc hdw h0 d0 w0 Ht Hforce Ha Hne Hsplit)
    as (n & doc' & holder & c & e0 & cs & inherited & Hrun & He & _ & Hh0 & Hc0
        & _ & _ & _ & Hn & Hh & Hc).
  eexists n, doc', holder, c, e0, _, _.
  split; [exact Hrun|]. split; [exact He|]. split; [exact Hn|].
  split; [reflexivity|]. split; [reflexivity|]. split; [reflexivity|].
  split; [exact Hh0|]. split; [exact Hh|].
  split; [intros ->; by rewrite He in Hc0|]. split; [exact Hc0|].
  split; [exact Hc|]. repeat split.
Qed.

(** The run of [computeBBox] on cached metrics. *)
Lemma computeBBox_cached_run (fuel : nat) (this : Wrapper) (bbox : BBox)
    (doc : gmap nat Element) (hdw : string) :
  hdw_attribute doc (node_getHTML this) = Some hdw → hdw ≠ "" →
  htmlHDW (jax this) = "use" ∨ htmlHDW (jax this) = "force" →
  computeBBox em length2em fixed fontFamily measureXMLnode fuel this bbox doc =
  Some (set_hdw (splitHDW length2em hdw) bbox, doc).
Proof.
  intros Ha Hne Hor.
  unfold computeBBox. unfold bind at 1. rewrite getHDW_run.
  change (default "use" (Some "force")) with "force". rewrite Ha.
  pose proof (hdw_condition hdw (htmlHDW (jax this)) "use" "force") as [_ Hc].
  rewrite Hc by (split; [exact Hne | exact Hor]).
  apply truthy_Some in Hne. rewrite Hne.
  unfold bind, ret, set_hdw. by destruct (splitHDW length2em hdw).
Qed.

(** X8: when the htmlHDW option is force and the stored HTML has a
    data-mjx-hdw value of three components or more, the box [computeBBox]
    gives and the styles of the element [getHTML] builds agree: the height
    is em(h + d), the width em(w) and the vertical-align em(-d) of the h, d
    and w of the bbox, and the position is relative. *)
Theorem bbox_agrees_with_styles (fuel : nat) (this : Wrapper) (bbox : BBox)
    (doc : gmap nat Element) (hdw : string) :
  tree_within fuel doc (node_getHTML this) = true →
  htmlHDW (jax this) = "force" →
  hdw_attribute doc (node_getHTML this) = Some hdw → hdw ≠ "" →
  (3 ≤ List.length (split hdw))%nat →
  ∃ (bbox' : BBox) (n : Node) (doc' : gmap nat Element) (e : Element)
    (width : PrimFloat.float),
    computeBBox em length2em fixed fontFamily measureXMLnode fuel this bbox doc =
      Some (bbox', doc) ∧
    getHTML em length2em fixed fontFamily fuel this doc = Some (n, doc') ∧
    doc' !! n = Some e ∧
    styles e !! "height" = Some (em (js_add (bbox_h bbox') (bbox_d bbox'))) ∧
    bbox_w bbox' = Num width ∧
    styles e !! "width" = Some (em width) ∧
    styles e !! "vertical-align" = Some (em (js_neg (bbox_d bbox'))) ∧
    styles e !! "position" = Some "relative".
Proof.
  intros Ht Hforce Ha Hne Hlen.
  destruct (splitHDW_numbers length2em hdw Hlen) as (h0 & d0 & w0 & Hsplit).
  destruct (getHTML_holder_run fuel this doc hdw h0 d0 w0 Ht Hforce Ha Hne Hsplit)
    as (n & doc' & holder & c & e0 & cs & inherited & Hrun & _ & _ & _ & _
        & _ & _ & _ & Hn & _).
  eexists _, n, doc', _, w0.
  split; [apply (computeBBox_cached_run fuel this bbox doc hdw Ha Hne); by right|].
  split; [exact Hrun|]. split; [exact Hn|].
  rewrite Hsplit. simpl. unfold html_styles, holder_styles.
  split; [|split; [reflexivity|]];
    repeat split; rewrite lookup_insert_ne by done;
    destruct (js_strict_neq _ _); by simplify_map_eq.
Qed.

(** ** The font family *)

Lemma js_or_nonempty (a : option string) (b : string) : b ≠ "" → js_or a b ≠ "".
Proof.
  intros Hb. destruct a as [s|]; [|done]. unfold js_or.
  destruct (truthy (Some s)) eqn:Hs; [|done]. by apply truthy_Some.
Qed.

Lemma js_or_first (s b : string) : s ≠ "" → js_or (Some s) b = s.
Proof. intros Hs. apply truthy_Some in Hs. unfold js_or. by rewrite Hs. Qed.

(** X9: the mjx-html element [getHTML] returns (the option is not force,
    or the cached metrics are complete) always has a font-family style, and
    it is never empty: it is the font-family of the parent's
    styles when there is one that is not empty; failing that, the family of
    the metrics when that is not empty. *)
Theorem getHTML_font_family (fuel : nat) (this : Wrapper) (doc : gmap nat Element) :
  tree_within fuel doc (node_getHTML this) = true →
  htmlHDW (jax this) ≠ "force" ∨ complete_hdw doc (node_getHTML this) = true →
  ∃ (n : Node) (doc' : gmap nat Element) (e : Element) (f : string),
    getHTML em length2em fixed fontFamily fuel this doc = Some (n, doc') ∧
    doc' !! n = Some e ∧
    styles e !! "font-family" = Some f ∧ f ≠ "" ∧
    (∀ p, styles_font_family (parent this) = Some p → p ≠ "" → f = p) ∧
    (styles_font_family (parent this) = None ∨
     styles_font_family (parent this) = Some "" →
     family (metrics (jax this)) ≠ "" → f = family (metrics (jax this))).
Proof.
  intros Ht Hret.
  destruct (getHTML_run em length2em fixed fontFamily fuel this doc Ht Hret)
    as (n & doc' & child & st & inherited & Hrun & _ & _ & Hn & _).
  eexists n, doc', _, _. split; [exact Hrun|]. split; [exact Hn|].
  split; [simpl; unfold html_styles; apply lookup_insert_eq|].
  split; [by do 3 apply js_or_nonempty|]. split.
  - intros p Hp Hne. rewrite Hp. by apply js_or_first.
  - intros [Hp|Hp] Hfam; rewrite Hp; simpl; by apply js_or_first.
Qed.

(** ** Calling [getHTML] again *)

(** X10: when the option is not force or the cached metrics are complete,
    [getHTML] can be called again on the document it leaves, with the same
    fuel: the second call returns another new element, leaves the
    element of the first call as it was, and every node of the document
    before the first call is still as it was. *)
Theorem getHTML_twice (fuel : nat) (this : Wrapper) (doc : gmap nat Element) :
  tree_within fuel doc (node_getHTML this) = true →
  htmlHDW (jax this) ≠ "force" ∨ complete_hdw doc (node_getHTML this) = true →
  ∃ (n1 n2 : Node) (doc1 doc2 : gmap nat Element),
    getHTML em length2em fixed fontFamily fuel this doc = Some (n1, doc1) ∧
    getHTML em length2em fixed fontFamily fuel this doc1 = Some (n2, doc2) ∧
    n1 ≠ n2 ∧ is_Some (doc1 !! n1) ∧ doc2 !! n1 = doc1 !! n1 ∧
    (∀ j e, doc !! j = Some e → doc2 !! j = Some e).
Proof.
  intros Ht Hret.
  destruct (getHTML_run em length2em fixed fontFamily fuel this doc Ht Hret)
    as (n1 & doc1 & c1 & st1 & i1 & Hrun1 & Hsub1 & _ & Hn1 & _).
  pose proof (tree_within_mono _ _ _ _ Hsub1 Ht) as Ht1.
  assert (Hret1 : htmlHDW (jax this) ≠ "force" ∨
                  complete_hdw doc1 (node_getHTML this) = true).
  { destruct Hret as [Hnot|Hcomplete]; [by left | right].
    assert (∃ e0, doc !! node_getHTML this = Some e0) as [e0 He0].
    { destruct fuel; [done|]. simpl in Ht.
      destruct (doc !! node_getHTML this); [by eexists | done]. }
    unfold complete_hdw, hdw_attribute in *.
    by rewrite (lookup_weaken _ _ _ _ He0 Hsub1); rewrite He0 in Hcomplete. }
  destruct (getHTML_run em length2em fixed fontFamily fuel this doc1 Ht1 Hret1)
    as (n2 & doc2 & c2 & st2 & i2 & Hrun2 & Hsub2 & Hfree2 & _ & _).
  exists n1, n2, doc1, doc2.
  split; [exact Hrun1|]. split; [exact Hrun2|].
  split; [intros ->; by rewrite Hn1 in Hfree2|].
  split; [by eexists|].
  split; [rewrite Hn1; by eapply lookup_weaken|].
  intros j e Hj. eapply lookup_weaken; [|exact Hsub2].
  by eapply lookup_weaken.
Qed.

(** ** The bounding box and the document *)

(** X11: when measuring changes no node but the one it measures,
    [computeBBox] returns and leaves every node of the document as it was,
    whether it reads the cached metrics or measures. *)
Theorem computeBBox_keeps_document (fuel : nat) (this : Wrapper) (bbox : BBox)
    (doc : gmap nat Element) :
  (∀ n d j e, j ≠ n → d !! j = Some e → (measureXMLnode n d).2 !! j = Some e) →
  tree_within fuel doc (node_getHTML this) = true →
  ∃ (bbox' : BBox) (doc' : gmap nat Element),
    computeBBox em length2em fixed fontFamily measureXMLnode fuel this bbox doc =
      Some (bbox', doc') ∧
    (∀ j e, doc !! j = Some e → doc' !! j = Some e) ∧
    bbox_L bbox' = bbox_L bbox ∧ bbox_R bbox' = bbox_R bbox ∧
    bbox_pwidth bbox' = bbox_pwidth bbox.
Proof.
  intros Hmeasure Ht.
  assert (Hmeasured :
    htmlHDW (jax this) ≠ "force" ∨ complete_hdw doc (node_getHTML this) = true →
    ∃ bbox' doc',
      (let! '(mkUnknownBBox h d w) :=
         (let! n := getHTML em length2em fixed fontFamily fuel this in
          λ doc, Some (measureXMLnode n doc)) in
       ret (mkBBox w h d (bbox_L bbox) (bbox_R bbox) (bbox_pwidth bbox))) doc =
      Some (bbox', doc') ∧
      (∀ j e, doc !! j = Some e → doc' !! j = Some e) ∧
      bbox_L bbox' = bbox_L bbox ∧ bbox_R bbox' = bbox_R bbox ∧
      bbox_pwidth bbox' = bbox_pwidth bbox).
  { intros Hret.
    destruct (getHTML_run em length2em fixed fontFamily fuel this doc Ht Hret)
      as (n & doc1 & child & st & inherited & Hrun & Hsub & Hfree & _).
    unfold bind. rewrite Hrun. unfold ret.
    pose proof (Hmeasure n doc1) as Hframe.
    destruct (measureXMLnode n doc1) as [[h0 d0 w0] doc2]. simpl in Hframe.
    eexists _, _. split; [reflexivity|]. split; [|done].
    intros j e Hj. apply Hframe.
    - intros ->. by rewrite Hfree in Hj.
    - by eapply lookup_weaken. }
  unfold computeBBox. unfold bind at 1. rewrite getHDW_run.
  change (default "use" (Some "force")) with "force".
  destruct (hdw_attribute doc (node_getHTML this)) as [a|] eqn:Ha.
  2: { apply Hmeasured. right. unfold complete_hdw. by rewrite Ha. }
  pose proof (hdw_condition a (htmlHDW (jax this)) "use" "force") as Hc.
  destruct (truthy (Some a) && _) eqn:Hb.
  - apply andb_true_iff in Hb as [Hta _]. rewrite Hta.
    unfold bind, ret. destruct (splitHDW length2em a).
    eexists _, _. split; [reflexivity|]. done.
  - apply Hmeasured.
    destruct (decide (htmlHDW (jax this) = "force")) as [Hforce|Hforce];
      [right | by left].
    unfold complete_hdw. rewrite Ha.
    destruct (String.eqb_spec a "") as [Hempty|Hempty]; [reflexivity|].
    exfalso. destruct Hc as [_ Hc].
    assert (Hfalse : false = true) by (apply Hc; split; [exact Hempty | by right]).
    discriminate Hfalse.
Qed.

(** ** Which metrics are defined *)

Lemma split_not_nil (x : string) : split x ≠ [].
Proof. unfold split. by destruct (components 0 "" x). Qed.

Lemma element_at_Undefined (arr : list PrimFloat.float) (i : nat) :
  element_at arr i = Undefined ↔ (List.length arr ≤ i)%nat.
Proof.
  unfold element_at. destruct (arr !! i) as [x|] eqn:Hi.
  - split; [done|]. intros Hlen. apply lookup_ge_None_2 in Hlen.
    rewrite Hi in Hlen. done.
  - split; [|done]. intros _. by apply lookup_ge_None.
Qed.

(** X12: [splitHDW] always gives a number for h; d is undefined exactly
    when the input has fewer than two components, and w exactly when it has
    fewer than three. *)
Theorem splitHDW_defined (hdw : string) :
  (∃ x, h (splitHDW length2em hdw) = Num x) ∧
  (d (splitHDW length2em hdw) = Undefined ↔ List.length (split hdw) < 2) ∧
  (w (splitHDW length2em hdw) = Undefined ↔ List.length (split hdw) < 3).
Proof.
  unfold splitHDW. simpl. split; [|split].
  - pose proof (split_not_nil hdw) as Hnil.
    destruct (split hdw) as [|a l]; [done|]. by eexists.
  - rewrite element_at_Undefined, length_map. lia.
  - rewrite element_at_Undefined, length_map. lia.
Qed.

Lemma components_blank (x : string) (skip : nat) :
  blank_from skip x = true → components skip "" x = [].
Proof.
  revert skip. induction x as [|c x IH]; intros skip Hb; [done|].
  simpl in *. destruct skip as [|skip]; [|by apply IH].
  destruct (if is_space c then _ else _) as [|k]; [done | by apply IH].
Qed.

Lemma components_not_empty (x word : string) (skip : nat) :
  Forall (λ s, s ≠ "") (components skip word x).
Proof.
  revert word skip. induction x as [|c x IH]; intros word skip; simpl.
  - destruct (String.eqb_spec word ""); [constructor|].
    by repeat constructor.
  - destruct skip as [|skip]; [|apply IH].
    destruct (if is_space c then _ else _) as [|k]; [apply IH|].
    destruct (String.eqb_spec word ""); [apply IH|].
    constructor; [done | apply IH].
Qed.

Lemma components_of_word (x word : string) (skip : nat) :
  word ≠ "" → components skip word x ≠ [].
Proof.
  revert word skip. induction x as [|c x IH]; intros word skip Hword; simpl.
  - by destruct (String.eqb_spec word "").
  - destruct skip as [|skip]; [|by apply IH].
    destruct (if is_space c then _ else _) as [|k].
    + apply IH. by destruct word.
    + by destruct (String.eqb_spec word "").
Qed.

Lemma components_not_blank (x word : string) (skip : nat) :
  blank_from skip x = false → components skip word x ≠ [].
Proof.
  revert word skip. induction x as [|c x IH]; intros word skip Hb; [done|].
  simpl in *. destruct skip as [|skip]; [|by apply IH].
  destruct (if is_space c then _ else _) as [|k].
  - apply components_of_word. by destruct word.
  - destruct (String.eqb word ""); [by apply IH | done].
Qed.

(** X13: on an input with nothing but white space, the empty string among
    them, [splitHDW] reads h as 0 and leaves d and w undefined. *)
Theorem splitHDW_blank_input (hdw : string) :
  blank hdw = true →
  splitHDW length2em hdw =
  mkUnknownBBox (Num (length2em "0")) Undefined Undefined.
Proof.
  intros Hb. unfold splitHDW, split. by rewrite (components_blank _ _ Hb).
Qed.

(** X14: on any other input no component is empty, so that the default 0
    never applies: the metrics are the first three components converted as
    they are, or undefined where there is none. *)
Theorem splitHDW_not_blank (hdw : string) :
  blank hdw = false →
  Forall (λ s, s ≠ "") (split hdw) ∧
  splitHDW length2em hdw =
  mkUnknownBBox (element_at (map length2em (split hdw)) 0)
                (element_at (map length2em (split hdw)) 1)
                (element_at (map length2em (split hdw)) 2).
Proof.
  intros Hb.
  assert (Hall : Forall (λ s, s ≠ "") (split hdw)).
  { unfold split. pose proof (components_not_empty hdw "" 0) as Hc.
    pose proof (components_not_blank hdw "" 0 Hb) as Hnil.
    by destruct (components 0 "" hdw). }
  split; [exact Hall|]. unfold splitHDW.
  assert (Hmap : map (λ x, length2em (if truthy (Some x) then x else "0")) (split hdw)
                 = map length2em (split hdw)).
  { induction Hall as [|s l Hs _ IH]; [done|]. simpl in *.
    apply truthy_Some in Hs. simpl in Hs. rewrite Hs. by rewrite IH. }
  by rewrite Hmap.
Qed.

(** X15: a cached value of fewer than three components reaches the bbox:
    with the option use or force, [computeBBox] returns with the w of the
    bbox undefined. *)
Theorem computeBBox_short_hdw (fuel : nat) (this : Wrapper) (bbox : BBox)
    (doc : gmap nat Element) (hdw : string) :
  hdw_attribute doc (node_getHTML this) = Some hdw → hdw ≠ "" →
  htmlHDW (jax this) = "use" ∨ htmlHDW (jax this) = "force" →
  List.length (split hdw) < 3 →
  ∃ bbox' : BBox,
    computeBBox em length2em fixed fontFamily measureXMLnode fuel this bbox doc =
      Some (bbox', doc) ∧
    bbox_w bbox' = Undefined.
Proof.
  intros Ha Hne Hor Hlen. eexists.
  split; [by apply (computeBBox_cached_run fuel this bbox doc hdw)|].
  simpl. by apply splitHDW_short.
Qed.

End FurtherMixin.

(** ** The further properties at the worked instance *)

Lemma Create_handled_witness :
  ∃ doc : value,
    Handler.is_handled doc = true ∧
    Handler.Create (λ _ _, Normal (VObject [DOCUMENT; OtherClass "Node"]))
      unit (value * unit) (λ v o, Normal (v, o)) (VString "<p>x</p>") tt
    = Normal (doc, tt).
Proof.
  destruct (Create_handled (λ _ _, Normal (VObject [DOCUMENT; OtherClass "Node"]))
              unit (value * unit) (λ v o, Normal (v, o)) (VString "<p>x</p>") tt)
    as (doc & Hdoc & _ & Hcreate).
  - reflexivity.
  - exists doc. split; assumption.
Defined.

Lemma Create_parse_error_witness :
  Handler.Create (λ _ _, Throw (VString "SyntaxError"))
    unit (value * unit) (λ v o, Normal (v, o)) (VString "<p>") tt
  = Throw (VString "SyntaxError") ∧
  Handler.HandlesDocument (λ _ _, Throw (VString "SyntaxError")) (VString "<p>")
  = Normal false.
Proof.
  apply (Create_parse_error (λ _ _, Throw (VString "SyntaxError"))
           unit (value * unit) (λ v o, Normal (v, o))).
  reflexivity.
Defined.

(** With the option use, the copy of the span is the child of the mjx-html
    element. *)
Lemma getHTML_without_holder_witness :
  ∃ (n : Node) (doc' : gmap nat Dom.Element) (c : Node) (ec e : Dom.Element),
    HtmlNode.getHTML Sample.em Sample.length2em Sample.fixed Sample.fontFamily 2
      (Sample.wrapper "use" 2%float) Sample.doc = Some (n, doc') ∧
    doc' !! n = Some e ∧ Dom.children e = [c] ∧
    Dom.styles e !! "height" = None ∧
    doc' !! c = Some ec ∧ Dom.kind ec = "span" ∧ Dom.parent_of ec = Some n.
Proof.
  destruct (getHTML_without_holder Sample.em Sample.length2em Sample.fixed
              Sample.fontFamily 2 (Sample.wrapper "use" 2%float) Sample.doc)
    as (n & doc' & c & e0 & ec & e & Hrun & He0 & Hn & _ & Hch & _ & Hst & _ & _
        & Hc & Hp & Hk & _).
  - vm_compute. reflexivity.
  - left. intros H. vm_compute in H. discriminate H.
  - exists n, doc', c, ec, e.
    split; [exact Hrun|]. split; [exact Hn|]. split; [exact Hch|].
    split; [by apply Hst|]. split; [exact Hc|]. split; [|exact Hp].
    rewrite Hk. vm_compute in He0. by injection He0 as <-.
Defined.

(** With the option force, a holder stands between the two. *)
Lemma getHTML_with_holder_witness :
  ∃ (n : Node) (doc' : gmap nat Dom.Element) (holder c : Node)
    (ec e : Dom.Element),
    HtmlNode.getHTML Sample.em Sample.length2em Sample.fixed Sample.fontFamily 2
      (Sample.wrapper "force" 2%float) Sample.doc = Some (n, doc') ∧
    doc' !! n = Some e ∧ Dom.children e = [holder] ∧
    doc' !! holder = Some (Dom.mkElement "mjx-html-holder" ∅ ∅ [c] (Some n) "") ∧
    doc' !! c = Some ec ∧ Dom.parent_of ec = Some holder.
Proof.
  destruct (getHTML_with_holder Sample.em Sample.length2em Sample.fixed
              Sample.fontFamily 2 (Sample.wrapper "force" 2%float) Sample.doc
              "1em 0.5em 2em")
    as (n & doc' & holder & c & e0 & ec & e & Hrun & _ & Hn & _ & Hch & _ & _
        & Hh & _ & _ & Hc & Hp & _).
  - vm_compute. reflexivity.
  - reflexivity.
  - vm_compute. reflexivity.
  - discriminate.
  - vm_compute. lia.
  - exists n, doc', holder, c, ec, e. repeat split; assumption.
Defined.

Lemma bbox_agrees_with_styles_witness :
  ∃ (bbox' : HtmlNode.BBox) (n : Node) (doc' : gmap nat Dom.Element)
    (e : Dom.Element) (width : PrimFloat.float),
    HtmlNode.computeBBox Sample.em Sample.length2em Sample.fixed
      Sample.fontFamily Sample.measureXMLnode 2 (Sample.wrapper "force" 1%float)
      Sample.bbox Sample.doc = Some (bbox', Sample.doc) ∧
    HtmlNode.getHTML Sample.em Sample.length2em Sample.fixed Sample.fontFamily 2
      (Sample.wrapper "force" 1%float) Sample.doc = Some (n, doc') ∧
    doc' !! n = Some e ∧
    HtmlNode.bbox_w bbox' = Num width ∧
    Dom.styles e !! "width" = Some (Sample.em width).
Proof.
  destruct (bbox_agrees_with_styles Sample.em Sample.length2em Sample.fixed
              Sample.fontFamily Sample.measureXMLnode 2
              (Sample.wrapper "force" 1%float) Sample.bbox Sample.doc
              "1em 0.5em 2em")
    as (bbox' & n & doc' & e & width & Hbox & Hrun & Hn & _ & Hbw & Hw & _).
  - vm_compute. reflexivity.
  - reflexivity.
  - vm_compute. reflexivity.
  - discriminate.
  - vm_compute. lia.
  - exists bbox', n, doc', e, width. repeat split; assumption.
Defined.

(** No font family on the parent or in the metrics: the one inherited from
    the paragraph around the expression is used. *)
Lemma getHTML_font_family_witness :
  ∃ (n : Node) (doc' : gmap nat Dom.Element) (e : Dom.Element) (f : string),
    HtmlNode.getHTML Sample.em Sample.length2em Sample.fixed Sample.fontFamily 2
      (Sample.wrapper "use" 1%float) Sample.doc = Some (n, doc') ∧
    doc' !! n = Some e ∧ Dom.styles e !! "font-family" = Some f ∧ f ≠ "".
Proof.
  destruct (getHTML_font_family Sample.em Sample.length2em Sample.fixed
              Sample.fontFamily 2 (Sample.wrapper "use" 1%float) Sample.doc)
    as (n & doc' & e & f & Hrun & Hn & Hf & Hne & _).
  - vm_compute. reflexivity.
  - left. intros H. vm_compute in H. discriminate H.
  - exists n, doc', e, f. repeat split; assumption.
Defined.

Lemma getHTML_twice_witness :
  ∃ (n1 n2 : Node) (doc1 doc2 : gmap nat Dom.Element),
    HtmlNode.getHTML Sample.em Sample.length2em Sample.fixed Sample.fontFamily 2
      (Sample.wrapper "force" 2%float) Sample.doc = Some (n1, doc1) ∧
    HtmlNode.getHTML Sample.em Sample.length2em Sample.fixed Sample.fontFamily 2
      (Sample.wrapper "force" 2%float) doc1 = Some (n2, doc2) ∧
    n1 ≠ n2 ∧ doc2 !! 0 = Sample.doc !! 0.
Proof.
  destruct (getHTML_twice Sample.em Sample.length2em Sample.fixed
              Sample.fontFamily 2 (Sample.wrapper "force" 2%float) Sample.doc)
    as (n1 & n2 & doc1 & doc2 & Hrun1 & Hrun2 & Hne & _ & _ & Hkeep).
  - vm_compute. reflexivity.
  - right. vm_compute. reflexivity.
  - exists n1, n2, doc1, doc2.
    split; [exact Hrun1|]. split; [exact Hrun2|]. split; [exact Hne|].
    by apply Hkeep.
Defined.

Lemma computeBBox_keeps_document_witness :
  ∃ (bbox' : HtmlNode.BBox) (doc' : gmap nat Dom.Element),
    HtmlNode.computeBBox Sample.em Sample.length2em Sample.fixed
      Sample.fontFamily Sample.measureXMLnode 2 (Sample.wrapper "ignore" 1%float)
      Sample.bbox Sample.doc = Some (bbox', doc') ∧
    (∀ j e, Sample.doc !! j = Some e → doc' !! j = Some e).
Proof.
  destruct (computeBBox_keeps_document Sample.em Sample.length2em Sample.fixed
              Sample.fontFamily Sample.measureXMLnode 2
              (Sample.wrapper "ignore" 1%float) Sample.bbox Sample.doc)
    as (bbox' & doc' & Hrun & Hkeep & _).
  - intros n d j e _ Hj. exact Hj.
  - vm_compute. reflexivity.
  - exists bbox', doc'. split; assumption.
Defined.

Lemma splitHDW_blank_input_witness :
  HtmlNode.splitHDW Sample.length2em "  " =
  HtmlNode.mkUnknownBBox (Num 0%float) Undefined Undefined.
Proof. apply (splitHDW_blank_input Sample.length2em "  "). reflexivity. Defined.

Lemma splitHDW_not_blank_witness :
  HtmlNode.splitHDW Sample.length2em " 1em  0.5em 2em 9em" =
  HtmlNode.mkUnknownBBox (Num 1%float) (Num 0.5%float) (Num 2%float).
Proof.
  apply (proj2 (splitHDW_not_blank Sample.length2em " 1em  0.5em 2em 9em" eq_refl)).
Defined.

Lemma computeBBox_short_hdw_witness :
  ∃ bbox' : HtmlNode.BBox,
    HtmlNode.computeBBox Sample.em Sample.length2em Sample.fixed
      Sample.fontFamily Sample.measureXMLnode 0 (Sample.wrapper "use" 1%float)
      Sample.bbox
      (<[0 := Dom.mkElement "span" {["data-mjx-hdw" := "1em 2em"]} ∅ [] None ""]>
         Sample.doc)
    = Some (bbox',
            <[0 := Dom.mkElement "span" {["data-mjx-hdw" := "1em 2em"]} ∅ [] None ""]>
              Sample.doc) ∧
    HtmlNode.bbox_w bbox' = Undefined.
Proof.
  apply (computeBBox_short_hdw Sample.em Sample.length2em Sample.fixed
           Sample.fontFamily Sample.measureXMLnode 0
           (Sample.wrapper "use" 1%float) Sample.bbox _ "1em 2em").
  - vm_compute. reflexivity.
  - discriminate.
  - left. reflexivity.
  - vm_compute. lia.
Defined.
